(** * mapbox::sqlite over QtSql: a shallow embedding of platform/qt/src/sqlite3.cpp

    The file wraps three QtSql classes (QSqlDatabase, QSqlQuery, QVariant)
    into [Database], [Statement] and [Transaction].  The embedding has two
    layers:

    - a model of the part of QtSql the file calls, kept in modules named
      after the Qt classes; the database engine behind it is an oracle
      [Driver] that answers [open] and [exec] from the history of calls;
    - the functions of sqlite3.cpp themselves, written in a state and
      exception monad, one definition per C++ function. *)

From Stdlib Require Import ZArith String Ascii List Bool Lia.
From stdpp Require Import base list strings pretty.

Local Open Scope string_scope.
Local Open Scope Z_scope.

(** ** Outcomes of a C++ call

    A call returns, throws, or trips an [assert] (which aborts the process
    and is not an exception a [catch] clause sees). *)

Inductive exn : Type :=
| Exception (code : Z) (msg : string)   (* mapbox::sqlite::Exception{code, msg} *)
| range_error (msg : string).           (* std::range_error *)

Inductive Outcome (A : Type) : Type :=
| Ret (a : A)
| Throw (e : exn)
| AssertFail.
Arguments Ret {A} a.
Arguments Throw {A} e.
Arguments AssertFail {A}.

Definition M (S A : Type) : Type := S -> Outcome A * S.

Definition m_ret {S A} (a : A) : M S A := fun s => (Ret a, s).

Definition m_bind {S A B} (m : M S A) (k : A -> M S B) : M S B :=
  fun s =>
    match m s with
    | (Ret a, s') => k a s'
    | (Throw e, s') => (Throw e, s')
    | (AssertFail, s') => (AssertFail, s')
    end.

Definition throw {S A} (e : exn) : M S A := fun s => (Throw e, s).

Definition assert {S} (b : S -> bool) : M S unit :=
  fun s => if b s then (Ret tt, s) else (AssertFail, s).

Definition gets {S A} (f : S -> A) : M S A := fun s => (Ret (f s), s).

Definition modify {S} (f : S -> S) : M S unit := fun s => (Ret tt, f s).

(** [try { m } catch (...) { }] *)
Definition try_catch_all {S} (m : M S unit) : M S unit :=
  fun s =>
    match m s with
    | (Throw _, s') => (Ret tt, s')
    | r => r
    end.

Declare Scope cpp_scope.
Delimit Scope cpp_scope with cpp.
Notation "x <- m ;; k" := (m_bind m (fun x => k))
  (at level 100, m at next level, right associativity) : cpp_scope.
Notation "m ;; k" := (m_bind m (fun _ => k))
  (at level 100, right associativity) : cpp_scope.
Local Open Scope cpp_scope.

Definition is_throw {A} (r : Outcome A) : bool :=
  match r with Throw _ => true | _ => false end.

(** ** QtSql: the classes sqlite3.cpp is written against *)

(** QSqlError::ErrorType and the integer each enumerator converts to when
    it is passed as the [int] code of an [Exception]. *)
Inductive ErrorType : Type :=
| NoError | ConnectionError | StatementError | TransactionError | UnknownError.

Global Instance ErrorType_eq_dec : EqDecision ErrorType.
Proof. solve_decision. Defined.

Definition ErrorType_int (t : ErrorType) : Z :=
  match t with
  | NoError => 0
  | ConnectionError => 1
  | StatementError => 2
  | TransactionError => 3
  | UnknownError => 4
  end.

Module QSqlError.
(** [number] is QSqlError::number(), the engine's own error number (for
    SQLite its result code), -1 when there is none; QSqlError::type() is
    Qt's classification of the error. *)
Record t : Type := mk { type : ErrorType; text : string; number : Z }.
(** The default-constructed QSqlError. *)
Definition none : t := mk NoError "" (-1).
End QSqlError.

(** QString, represented by its UTF-8 encoding, so that [toStdString] is
    the identity.  SQL text, file names and option strings are UTF-8
    text, on which [QString::fromStdString] is the identity as well; the
    strings a caller binds as values are data and go through
    [fromStdString] below. *)
Definition isEmpty (s : string) : bool :=
  match s with EmptyString => true | _ => false end.

(** [s.c_str()] read as a C string, as the QString constructor reads a
    [const char *]: the characters before the first NUL. *)
Fixpoint c_str (s : string) : string :=
  match s with
  | EmptyString => EmptyString
  | String c rest =>
      if Ascii.eqb c Ascii.zero then EmptyString else String c (c_str rest)
  end.

(** *** QString::fromStdString

    Qt decodes the bytes as UTF-8 (QUtf8::convertToUnicode): a byte order
    mark at the start is skipped, a well-formed sequence is kept, and a
    byte that starts no well-formed sequence becomes U+FFFD, the decoding
    resuming at the byte after it. *)

Definition byte_value (a : ascii) : Z := Z.of_N (N_of_ascii a).

Definition isContinuationByte (a : ascii) : bool :=
  Z.land (byte_value a) 192 =? 128.

(** U+FFFD in UTF-8: EF BF BD. *)
Definition ReplacementCharacter : string :=
  String "239" (String "191" (String "189" "")).

(** The well-formed sequence that [s] starts with, and what follows it:
    shortest form, no surrogate, nothing above U+10FFFF. *)
Definition utf8_sequence (s : string) : option (string * string) :=
  match s with
  | EmptyString => None
  | String b rest =>
      let b0 := byte_value b in
      if b0 <? 128 then Some (String b "", rest)
      else if (b0 <=? 193) || (245 <=? b0) then None
      else if b0 <? 224 then
        match rest with
        | String b1 r =>
            let uc := Z.land b0 31 * 64 + Z.land (byte_value b1) 63 in
            if isContinuationByte b1 && (128 <=? uc)
            then Some (String b (String b1 ""), r) else None
        | _ => None
        end
      else if b0 <? 240 then
        match rest with
        | String b1 (String b2 r) =>
            let uc := Z.land b0 15 * 4096 + Z.land (byte_value b1) 63 * 64
                      + Z.land (byte_value b2) 63 in
            if isContinuationByte b1 && isContinuationByte b2
               && (2048 <=? uc) && negb ((55296 <=? uc) && (uc <=? 57343))
            then Some (String b (String b1 (String b2 "")), r) else None
        | _ => None
        end
      else
        match rest with
        | String b1 (String b2 (String b3 r)) =>
            let uc := Z.land b0 7 * 262144 + Z.land (byte_value b1) 63 * 4096
                      + Z.land (byte_value b2) 63 * 64
                      + Z.land (byte_value b3) 63 in
            if isContinuationByte b1 && isContinuationByte b2
               && isContinuationByte b3 && (65536 <=? uc) && (uc <=? 1114111)
            then Some (String b (String b1 (String b2 (String b3 ""))), r)
            else None
        | _ => None
        end
  end.

(** [fuel] bounds the number of steps; the length of [s] is enough. *)
Fixpoint convertToUnicode (fuel : nat) (s : string) : string :=
  match fuel, s with
  | O, _ => ""
  | _, EmptyString => ""
  | S fuel', String _ rest =>
      match utf8_sequence s with
      | Some (seq, rest') => seq +:+ convertToUnicode fuel' rest'
      | None => ReplacementCharacter +:+ convertToUnicode fuel' rest
      end
  end.

Definition skip_bom (s : string) : string :=
  match s with
  | String "239" (String "187" (String "191" rest)) => rest
  | _ => s
  end.

Definition fromStdString (s : string) : string :=
  convertToUnicode (String.length (skip_bom s)) (skip_bom s).

(** UTF-8 text: well-formed sequences only, and no byte order mark in
    front. *)
Fixpoint well_formed (fuel : nat) (s : string) : bool :=
  match fuel, s with
  | _, EmptyString => true
  | O, _ => false
  | S fuel', _ =>
      match utf8_sequence s with
      | Some (_, rest') => well_formed fuel' rest'
      | None => false
      end
  end.

Definition utf8_text (s : string) : bool :=
  bool_decide (skip_bom s = s) && well_formed (String.length s) s.

Module QVariant.
  (** The C++ types that [Statement::bind] stores and [Statement::get]
      asks for.  [std::time_t] is the 64-bit [long], that is [Int64]. *)
Inductive IntType : Type :=
  | Int8 | Int16 | Int32 | Int64 | UInt8 | UInt16 | UInt32.

Inductive MetaType : Type :=
  | TNullptr | TInt (ty : IntType) | TDouble | TBool | TString | TBytes.

  (** A QVariant is a value tagged with its stored type.  A double is
      carried as its IEEE-754 bit pattern: the file only stores and returns
      doubles. *)
Inductive t : Type :=
  | Invalid                              (* QVariant() *)
  | Nullptr                              (* fromValue<std::nullptr_t> *)
  | Int (ty : IntType) (z : Z)           (* fromValue<intN_t / uintN_t> *)
  | Double (bits : Z)                    (* fromValue<double> *)
  | Bool (b : bool)                      (* fromValue<bool> *)
  | Str (s : string)                     (* fromValue<QString> *)
  | Bytes (l : list Byte.byte).          (* std::vector<uint8_t> *)

Global Instance IntType_eq_dec : EqDecision IntType.
Proof. solve_decision. Defined.

  (** QVariant::isNull: nothing stored, or a stored null pointer. *)
Definition isNull (v : t) : bool :=
    match v with Invalid | Nullptr => true | _ => false end.

Section Value.
    (** [QVariant::convert] between different stored types is Qt's
        conversion table; it is not part of the repository and is taken as
        a parameter.  What is fixed here is what [value<T>()] does without
        it: a variant that stores a [T] returns it, an invalid variant
        returns a default-constructed [T]. *)
Variable qconvert : t -> MetaType -> t.

Definition value_int (ty : IntType) (v : t) : Z :=
      match v with
      | Invalid => 0
      | Int ty' z =>
          if decide (ty' = ty) then z
          else match qconvert v (TInt ty) with Int _ z' => z' | _ => 0 end
      | _ => match qconvert v (TInt ty) with Int _ z' => z' | _ => 0 end
      end.

Definition value_double (v : t) : Z :=
      match v with
      | Invalid => 0
      | Double bits => bits
      | _ => match qconvert v TDouble with Double bits => bits | _ => 0 end
      end.

Definition value_bool (v : t) : bool :=
      match v with
      | Invalid => false
      | Bool b => b
      | _ => match qconvert v TBool with Bool b => b | _ => false end
      end.

Definition value_bytes (v : t) : list Byte.byte :=
      match v with
      | Invalid => []
      | Bytes l => l
      | _ => match qconvert v TBytes with Bytes l => l | _ => [] end
      end.

Definition toString (v : t) : string :=
      match v with
      | Invalid => ""
      | Str s => s
      | _ => match qconvert v TString with Str s => s | _ => "" end
      end.
End Value.
End QVariant.

(** The engine behind QtSql.  What it answers depends on everything it was
    asked before, so it is a function of the history of calls (most recent
    first). *)
Inductive Event : Type :=
| EvOpen (name options : string)
| EvClose
| EvExec (sql : string).

Record Reply : Type := mkReply {
  reply_error : QSqlError.t;
  reply_rows : list (list QVariant.t);
  reply_lastInsertId : QVariant.t;
  reply_numRowsAffected : Z
}.

Record Driver : Type := mkDriver {
  drv_open : list Event -> string -> string -> QSqlError.t;
  drv_exec : list Event -> string -> Reply
}.

Module QSqlQuery.
Record t : Type := mk {
    lastQuery : string;
    boundValues : list QVariant.t;       (* positional binds, index 0 first *)
    lastError : QSqlError.t;
    isActive : bool;
    rows : list (list QVariant.t);       (* the result set *)
    at_ : Z;                             (* cursor; -1 is BeforeFirstRow *)
    lastInsertId : QVariant.t;
    numRowsAffected : Z
  }.

  (** A query on a fresh result: no text, no binds, no rows. *)
Definition fresh : t :=
    mk "" [] QSqlError.none false [] (-1) QVariant.Invalid (-1).

Definition of_reply (sql : string) (r : Reply) : t :=
    mk sql [] (reply_error r)
       (bool_decide (QSqlError.type (reply_error r) = NoError))
       (reply_rows r) (-1) (reply_lastInsertId r) (reply_numRowsAffected r).

  (** bindValue(int pos, val): the vector of binds grows to hold [pos].
      A negative [pos] is outside Qt's contract; the model leaves the
      binds alone. *)
Definition bindValue (pos : Z) (val : QVariant.t) (q : t) : t :=
    if pos <? 0 then q
    else
      let i := Z.to_nat pos in
      let vs := boundValues q in
      let vs := if (length vs <=? i)%nat then resize (S i) QVariant.Invalid vs else vs in
      mk (lastQuery q) (<[i := val]> vs) (lastError q) (isActive q)
         (rows q) (at_ q) (lastInsertId q) (numRowsAffected q).

  (** boundValue(int pos): the bind at [pos], an invalid variant when
      there is none. *)
Definition boundValue (pos : Z) (q : t) : QVariant.t :=
    if pos <? 0 then QVariant.Invalid
    else default QVariant.Invalid (boundValues q !! Z.to_nat pos).

  (** clear(): the query is replaced by one on a fresh result. *)
Definition clear (q : t) : t := fresh.

  (** next(): whether a further row is there, and the query positioned on
      it.  sqlite3.cpp never calls it; it says what "a row is available"
      means for a query. *)
Definition next (q : t) : bool * t :=
    if isActive q && (at_ q + 1 <? Z.of_nat (length (rows q))) then
      (true, mk (lastQuery q) (boundValues q) (lastError q) (isActive q)
                (rows q) (at_ q + 1) (lastInsertId q) (numRowsAffected q))
    else (false, q).
End QSqlQuery.

Module QSqlDatabase.
Record t : Type := mk {
    connectOptions : string;
    databaseName : string;
    isOpen : bool;
    lastError : QSqlError.t;
    history : list Event                 (* what the engine was asked so far *)
  }.

  (** addDatabase("QSQLITE"): a closed connection with nothing set. *)
Definition addDatabase (driver_name : string) : t :=
    mk "" "" false QSqlError.none [].

Definition setConnectOptions (options : string) (d : t) : t :=
    mk options (databaseName d) (isOpen d) (lastError d) (history d).

Definition setDatabaseName (name : string) (d : t) : t :=
    mk (connectOptions d) name (isOpen d) (lastError d) (history d).

Definition close (d : t) : t :=
    mk (connectOptions d) (databaseName d) false (lastError d)
       (EvClose :: history d).

Section Engine.
Variable drv : Driver.

    (** open(): hands name and options to the engine; the connection is
        open afterwards exactly when the engine reports no error. *)
Definition open (d : t) : bool * t :=
      let d := if isOpen d then close d else d in
      let e := drv_open drv (history d) (databaseName d) (connectOptions d) in
      let h := EvOpen (databaseName d) (connectOptions d) :: history d in
      if decide (QSqlError.type e = NoError)
      then (true, mk (connectOptions d) (databaseName d) true (lastError d) h)
      else (false, mk (connectOptions d) (databaseName d) false e h).

    (** exec(sql): runs [sql] and returns the query that holds the
        outcome; the connection remembers the query's error. *)
Definition exec (sql : string) (d : t) : QSqlQuery.t * t :=
      let r := drv_exec drv (history d) sql in
      (QSqlQuery.of_reply sql r,
       mk (connectOptions d) (databaseName d) (isOpen d) (reply_error r)
          (EvExec sql :: history d)).

    (** QSqlQuery(sql, db): a non-empty [sql] is executed at once. *)
Definition query (sql : string) (d : t) : QSqlQuery.t * t :=
      if isEmpty sql then (QSqlQuery.fresh, d)
      else
        let r := drv_exec drv (history d) sql in
        (QSqlQuery.of_reply sql r,
         mk (connectOptions d) (databaseName d) (isOpen d) (lastError d)
            (EvExec sql :: history d)).
End Engine.
End QSqlDatabase.

(** ** sqlite3.cpp *)

(** [f] on the part [T] of the state that a pointer or a member leads to;
    following a null pointer ends the run like a failed assertion. *)
Definition zoom {S T A} (get : S -> option T) (put : T -> S -> S)
    (m : M T A) : M S A :=
  fun s =>
    match get s with
    | Some t => let (r, t') := m t in (r, put t' s)
    | None => (AssertFail, s)
    end.

(** A call of a Qt member function that returns a value and updates the
    object, one that only reads it, and one that only updates it. *)
Definition call {S A} (f : S -> A * S) : M S A :=
  fun s => let (a, s') := f s in (Ret a, s').

Module DatabaseImpl.
Record t : Type := mk { db : QSqlDatabase.t }.

Section Ctor.
Variable drv : Driver.
(** OpenFlag::ReadOnly and OpenFlag::SharedCache are declared in
    sqlite3.hpp, which is not among the sources. *)
Variables ReadOnly SharedCache : Z.

Definition ctor (filename : string) (flags : Z) : Outcome t :=
  let db := QSqlDatabase.addDatabase "QSQLITE" in
  let connectOptions := "" in
  let connectOptions :=
    if negb (Z.land flags ReadOnly =? 0)
    then connectOptions +:+ "QSQLITE_OPEN_READONLY"
    else connectOptions in
  let connectOptions :=
    if negb (Z.land flags SharedCache =? 0) then
      if isEmpty connectOptions
      then connectOptions +:+ "QSQLITE_ENABLE_SHARED_CACHE"
      else connectOptions +:+ ";QSQLITE_ENABLE_SHARED_CACHE"
    else connectOptions in
  let db := QSqlDatabase.setConnectOptions connectOptions db in
  let db := QSqlDatabase.setDatabaseName filename db in
  let (opened, db) := QSqlDatabase.open drv db in
  if negb opened then
    let lastError := QSqlDatabase.lastError db in
    Throw (Exception (ErrorType_int (QSqlError.type lastError))
                     (QSqlError.text lastError))
  else Ret (mk db).
End Ctor.

Definition dtor (self : t) : t := mk (QSqlDatabase.close (db self)).
End DatabaseImpl.

Module StatementImpl.
Record t : Type := mk { query : QSqlQuery.t }.

Definition checkError : M t unit :=
  lastError <- gets (fun self => QSqlQuery.lastError (query self)) ;;
  if negb (bool_decide (QSqlError.type lastError = NoError)) then
    throw (Exception (ErrorType_int (QSqlError.type lastError))
                     (QSqlError.text lastError))
  else m_ret tt.

(** StatementImpl(sql, db): builds the query (which runs [sql] on [db])
    and checks it. *)
Definition ctor (drv : Driver) (sql : string) : M QSqlDatabase.t t :=
  q <- call (QSqlDatabase.query drv sql) ;;
  fun d =>
    match checkError (mk q) with
    | (Ret _, self) => (Ret self, d)
    | (Throw e, _) => (Throw e, d)
    | (AssertFail, _) => (AssertFail, d)
    end.

Definition dtor (self : t) : t := mk (QSqlQuery.clear (query self)).
End StatementImpl.

Module Database.
(** [impl] is a [std::unique_ptr<DatabaseImpl>]: null after a move. *)
Record t : Type := mk { impl : option DatabaseImpl.t }.

Definition has_impl (self : t) : bool :=
  match impl self with Some _ => true | None => false end.

(** [impl->db] *)
Definition on_db {A} (m : M QSqlDatabase.t A) : M t A :=
  zoom (fun self => DatabaseImpl.db <$> impl self)
       (fun d _ => mk (Some (DatabaseImpl.mk d))) m.

Definition move_ctor (other : t) : t * t := (mk (impl other), mk None).

Definition move_assign (self other : t) : t * t :=
  (mk (impl other), mk (impl self)).

Definition operator_bool (self : t) : bool := has_impl self.

Section Members.
Variable drv : Driver.
Variables ReadOnly SharedCache : Z.
(** mbgl::util::toString (mbgl/util/string.hpp, not among the sources)
    on the tick count of the timeout. *)
Variable toString : Z -> string.

Definition ctor (file : string) (flags : Z) : Outcome t :=
  match DatabaseImpl.ctor drv ReadOnly SharedCache (c_str file) flags with
  | Ret i => Ret (mk (Some i))
  | Throw e => Throw e
  | AssertFail => AssertFail
  end.

Definition setBusyTimeout (timeout : Z) : M t unit :=
  assert has_impl ;;
  let timeoutStr := toString timeout in
  connectOptions <- on_db (gets QSqlDatabase.connectOptions) ;;
  let connectOptions :=
    if isEmpty connectOptions
    then connectOptions +:+ "QSQLITE_BUSY_TIMEOUT=" +:+ timeoutStr
    else connectOptions +:+ ";QSQLITE_BUSY_TIMEOUT=" +:+ timeoutStr in
  isOpen <- on_db (gets QSqlDatabase.isOpen) ;;
  (if isOpen : bool then on_db (modify QSqlDatabase.close) else m_ret tt) ;;
  on_db (modify (QSqlDatabase.setConnectOptions connectOptions)) ;;
  opened <- on_db (call (QSqlDatabase.open drv)) ;;
  if negb opened then
    lastError <- on_db (gets QSqlDatabase.lastError) ;;
    throw (Exception (ErrorType_int (QSqlError.type lastError))
                     (QSqlError.text lastError))
  else m_ret tt.

Definition exec (sql : string) : M t unit :=
  assert has_impl ;;
  query <- on_db (call (QSqlDatabase.exec drv sql)) ;;
  let lastError := QSqlQuery.lastError query in
  if negb (bool_decide (QSqlError.type lastError = NoError)) then
    throw (Exception (ErrorType_int (QSqlError.type lastError))
                     (QSqlError.text lastError))
  else m_ret tt.
End Members.
End Database.

Module Statement.
(** [impl] is a [std::unique_ptr<StatementImpl>]: null after a move. *)
Record t : Type := mk { impl : option StatementImpl.t }.

Definition has_impl (self : t) : bool :=
  match impl self with Some _ => true | None => false end.

(** [impl->...] and [impl->query...] *)
Definition on_impl {A} (m : M StatementImpl.t A) : M t A :=
  zoom impl (fun i _ => mk (Some i)) m.

Definition on_query {A} (m : M QSqlQuery.t A) : M t A :=
  on_impl (zoom (fun i => Some (StatementImpl.query i))
                (fun q _ => StatementImpl.mk q) m).

(** Statement(Database* db, const char* sql), reading [db->impl->db]. *)
Definition ctor (drv : Driver) (sql : string) : M Database.t t :=
  i <- Database.on_db (StatementImpl.ctor drv sql) ;;
  m_ret (mk (Some i)).

(** Database::prepare *)
Definition prepare (drv : Driver) (query : string) : M Database.t t :=
  assert Database.has_impl ;;
  ctor drv query.

Definition move_assign (self other : t) : t * t :=
  (mk (impl other), mk (impl self)).

Definition move_ctor (other : t) : t * t := move_assign (mk None) other.

Definition operator_bool (self : t) : bool := has_impl self.

(** INT_MAX, std::numeric_limits<int>::max() *)
Definition int_max : Z := 2147483647.

Section Members.
Variable qconvert : QVariant.t -> QVariant.MetaType -> QVariant.t.
(** std::chrono::system_clock::to_time_t on a time point counted in
    seconds, and time_point_cast<seconds> of from_time_t; a time point is
    its count of seconds since the epoch. *)
Variables to_time_t from_time_t : Z -> Z.

(** template <typename T> void bind(int offset, T value), given
    [QVariant::fromValue<T>(value)]. *)
Definition bind (offset : Z) (value : QVariant.t) : M t unit :=
  assert has_impl ;;
  on_query (modify (QSqlQuery.bindValue offset value)) ;;
  on_impl StatementImpl.checkError.

(** The instantiations of the template. *)
Definition bind_nullptr (offset : Z) : M t unit :=
  bind offset QVariant.Nullptr.
Definition bind_int (ty : QVariant.IntType) (offset : Z) (value : Z) : M t unit :=
  bind offset (QVariant.Int ty value).
Definition bind_double (offset : Z) (value : Z) : M t unit :=
  bind offset (QVariant.Double value).
Definition bind_bool (offset : Z) (value : bool) : M t unit :=
  bind offset (QVariant.Bool value).

Definition bind_time_point (offset : Z) (value : Z) : M t unit :=
  bind_int QVariant.Int64 offset (to_time_t value).

Definition bind_optional_time_point (offset : Z) (value : option Z) : M t unit :=
  match value with
  | Some v => bind_time_point offset v
  | None => bind_nullptr offset
  end.

Definition bind_optional_string (offset : Z) (value : option string) : M t unit :=
  match value with
  | Some v => bind offset (QVariant.Str (fromStdString v))
  | None => bind_nullptr offset
  end.

(** bind(int offset, const char* value, std::size_t length, bool retain) *)
Definition bind_text (offset : Z) (value : string) (length : Z) (retain : bool)
  : M t unit :=
  assert has_impl ;;
  if int_max <? length then
    throw (range_error "value too long for sqlite3_bind_text")
  else
    (* TODO *)
    m_ret tt.

(** bind(int offset, const std::string& value, bool retain) *)
Definition bind_string (offset : Z) (value : string) (retain : bool) : M t unit :=
  bind_text offset value (Z.of_nat (String.length value)) retain.

(** bindBlob(int offset, const void* value, std::size_t length, bool retain) *)
Definition bindBlob (offset : Z) (value : list Byte.byte) (length : Z)
    (retain : bool) : M t unit :=
  assert has_impl ;;
  if int_max <? length then
    throw (range_error "value too long for sqlite3_bind_text")
  else
    (* TODO *)
    m_ret tt.

(** bindBlob(int offset, const std::vector<uint8_t>& value, bool retain) *)
Definition bindBlob_vector (offset : Z) (value : list Byte.byte) (retain : bool)
  : M t unit :=
  bindBlob offset value (Z.of_nat (List.length value)) retain.

Definition run : M t bool :=
  assert has_impl ;;
  (* TODO *)
  m_ret false.

(** The three lines every [get] starts with:
    assert(impl); value = impl->query.boundValue(offset); impl->checkError(); *)
Definition boundValue (offset : Z) : M t QVariant.t :=
  assert has_impl ;;
  value <- on_query (gets (QSqlQuery.boundValue offset)) ;;
  on_impl StatementImpl.checkError ;;
  m_ret value.

(** template <typename T> T get(int offset) and its instantiations. *)
Definition get_int (ty : QVariant.IntType) (offset : Z) : M t Z :=
  value <- boundValue offset ;;
  m_ret (QVariant.value_int qconvert ty value).
Definition get_double (offset : Z) : M t Z :=
  value <- boundValue offset ;;
  m_ret (QVariant.value_double qconvert value).
Definition get_bool (offset : Z) : M t bool :=
  value <- boundValue offset ;;
  m_ret (QVariant.value_bool qconvert value).
Definition get_bytes (offset : Z) : M t (list Byte.byte) :=
  value <- boundValue offset ;;
  m_ret (QVariant.value_bytes qconvert value).

Definition get_time_point (offset : Z) : M t Z :=
  value <- boundValue offset ;;
  m_ret (from_time_t (QVariant.value_int qconvert QVariant.Int64 value)).

Definition get_optional_int64 (offset : Z) : M t (option Z) :=
  value <- boundValue offset ;;
  if QVariant.isNull value then m_ret None
  else m_ret (Some (QVariant.value_int qconvert QVariant.Int64 value)).

Definition get_optional_double (offset : Z) : M t (option Z) :=
  value <- boundValue offset ;;
  if QVariant.isNull value then m_ret None
  else m_ret (Some (QVariant.value_double qconvert value)).

Definition get_string (offset : Z) : M t string :=
  value <- boundValue offset ;;
  m_ret (QVariant.toString qconvert value).

Definition get_optional_string (offset : Z) : M t (option string) :=
  value <- boundValue offset ;;
  if QVariant.isNull value then m_ret None
  else m_ret (Some (QVariant.toString qconvert value)).

Definition get_optional_time_point (offset : Z) : M t (option Z) :=
  value <- boundValue offset ;;
  if QVariant.isNull value then m_ret None
  else m_ret (Some (from_time_t (QVariant.value_int qconvert QVariant.Int64 value))).

Definition reset : M t unit :=
  assert has_impl ;;
  on_query (modify QSqlQuery.clear).

Definition clearBindings : M t unit :=
  assert has_impl ;;
  (* FIXME: Find a better way of doing this. *)
  on_query (modify QSqlQuery.clear).

Definition lastInsertRowId : M t Z :=
  assert has_impl ;;
  id <- on_query (gets QSqlQuery.lastInsertId) ;;
  m_ret (QVariant.value_int qconvert QVariant.Int64 id).

(** The [int] of numRowsAffected() converted to [uint64_t]. *)
Definition changes : M t Z :=
  assert has_impl ;;
  n <- on_query (gets QSqlQuery.numRowsAffected) ;;
  m_ret (n mod 2 ^ 64).
End Members.
End Statement.

Module Transaction.
Inductive Mode : Type := Deferred | Immediate | Exclusive.

(** [db] is the [Database&] member: the state of the Database the
    transaction refers to, read back from the transaction after a call. *)
Record t : Type := mk { db : Database.t; needRollback : bool }.

Definition on_db {A} (m : M Database.t A) : M t A :=
  zoom (fun self => Some (db self)) (fun d self => mk d (needRollback self)) m.

Definition set_needRollback (b : bool) : M t unit :=
  modify (fun self => mk (db self) b).

Section Members.
Variable drv : Driver.

(** Transaction(Database& db_, Mode mode).
    Modelled from the spec: the member initialiser of [needRollback] is in
    sqlite3.hpp, which is not among the sources; the flag is "initialized
    true on construction". *)
Definition ctor (mode : Mode) : M Database.t t :=
  match mode with
  | Deferred => Database.exec drv "BEGIN DEFERRED TRANSACTION"
  | Immediate => Database.exec drv "BEGIN IMMEDIATE TRANSACTION"
  | Exclusive => Database.exec drv "BEGIN EXCLUSIVE TRANSACTION"
  end ;;
  db_ <- gets id ;;
  m_ret (mk db_ true).

Definition commit : M t unit :=
  set_needRollback false ;;
  on_db (Database.exec drv "COMMIT TRANSACTION").

Definition rollback : M t unit :=
  set_needRollback false ;;
  on_db (Database.exec drv "ROLLBACK TRANSACTION").

Definition dtor : M t unit :=
  fun self =>
    if needRollback self then
      try_catch_all rollback self
    else m_ret tt self.
End Members.
End Transaction.

(** ** Observations used in the statements *)

(** What the engine behind a connection was asked so far. *)
Definition asked (c : Database.t) : list Event :=
  match Database.impl c with
  | Some i => QSqlDatabase.history (DatabaseImpl.db i)
  | None => []
  end.

Definition connection_open (c : Database.t) : bool :=
  match Database.impl c with
  | Some i => QSqlDatabase.isOpen (DatabaseImpl.db i)
  | None => false
  end.

Definition connection_options (c : Database.t) : string :=
  match Database.impl c with
  | Some i => QSqlDatabase.connectOptions (DatabaseImpl.db i)
  | None => ""
  end.

(** A statement holding the query [q]. *)
Definition holding (q : QSqlQuery.t) : Statement.t :=
  Statement.mk (Some (StatementImpl.mk q)).

Definition bound (s : Statement.t) : list QVariant.t :=
  match Statement.impl s with
  | Some i => QSqlQuery.boundValues (StatementImpl.query i)
  | None => []
  end.

(** A further result row is there for the statement to step to. *)
Definition row_available (s : Statement.t) : bool :=
  match Statement.impl s with
  | Some i => fst (QSqlQuery.next (StatementImpl.query i))
  | None => false
  end.

(** The query of a statement reports no error: what [checkError] tests. *)
Definition no_error (q : QSqlQuery.t) : Prop :=
  QSqlError.type (QSqlQuery.lastError q) = NoError.

(** The same query over another result set and cursor. *)
Definition with_rows (rows : list (list QVariant.t)) (at_ : Z)
    (q : QSqlQuery.t) : QSqlQuery.t :=
  QSqlQuery.mk (QSqlQuery.lastQuery q) (QSqlQuery.boundValues q)
    (QSqlQuery.lastError q) (QSqlQuery.isActive q) rows at_
    (QSqlQuery.lastInsertId q) (QSqlQuery.numRowsAffected q).

(** The connect options the constructor of DatabaseImpl computes from the
    flags, and the ones setBusyTimeout computes from the current ones. *)
Definition open_options (ReadOnly SharedCache flags : Z) : string :=
  match negb (Z.land flags ReadOnly =? 0), negb (Z.land flags SharedCache =? 0) with
  | false, false => ""
  | true, false => "QSQLITE_OPEN_READONLY"
  | false, true => "QSQLITE_ENABLE_SHARED_CACHE"
  | true, true => "QSQLITE_OPEN_READONLY;QSQLITE_ENABLE_SHARED_CACHE"
  end.

Definition timeout_options (toString : Z -> string) (timeout : Z)
    (options : string) : string :=
  if isEmpty options
  then options +:+ "QSQLITE_BUSY_TIMEOUT=" +:+ toString timeout
  else options +:+ ";QSQLITE_BUSY_TIMEOUT=" +:+ toString timeout.

(** The atomicity asked of setBusyTimeout, on one call: it returns with
    the connection open under the new options, or it throws with the
    connection still open under the old ones. *)
Definition setBusyTimeout_atomic (drv : Driver) (toString : Z -> string)
    (timeout : Z) (c : Database.t) : Prop :=
  let (r, c') := Database.setBusyTimeout drv toString timeout c in
  (r = Ret tt /\ connection_open c' = true /\
   connection_options c' = timeout_options toString timeout (connection_options c))
  \/ (is_throw r = true /\ connection_open c' = true /\
      connection_options c' = connection_options c).


(** reset() leaving the bound parameter slots as they were. *)
Definition reset_keeps_bindings (s : Statement.t) : Prop :=
  forall s', Statement.reset s = (Ret tt, s') -> bound s' = bound s.

(** ** Engines and inputs of the examples *)

Module Examples.
(** A conversion table that converts nothing. *)
Definition no_conversion : QVariant.t -> QVariant.MetaType -> QVariant.t :=
  fun _ _ => QVariant.Invalid.

(** The flag values of SQLite's SQLITE_OPEN_READONLY and
    SQLITE_OPEN_SHAREDCACHE. *)
Definition ReadOnly : Z := 1.
Definition SharedCache : Z := 131072.

Definition reply_ok (rows : list (list QVariant.t)) : Reply :=
  mkReply QSqlError.none rows QVariant.Invalid 0.

Definition reply_failed (msg : string) : Reply :=
  mkReply (QSqlError.mk StatementError msg 5) [] QVariant.Invalid (-1).

(** SQLite's SQLITE_CANTOPEN (14), which Qt classes as a connection
    error. *)
Definition cannot_open : QSqlError.t :=
  QSqlError.mk ConnectionError "unable to open database file" 14.

(** Opens anything; "SELECT 1" has one row, everything else none. *)
Definition engine : Driver :=
  mkDriver (fun _ _ _ => QSqlError.none)
    (fun _ sql =>
       if String.eqb sql "SELECT 1"
       then reply_ok [[QVariant.Int QVariant.Int64 1]]
       else reply_ok []).

(** Like [engine], but the statement [stmt] fails, with SQLite's
    SQLITE_BUSY (5). *)
Definition engine_rejecting (stmt : string) : Driver :=
  mkDriver (fun _ _ _ => QSqlError.none)
    (fun _ sql =>
       if String.eqb sql stmt then reply_failed "database is locked"
       else reply_ok []).

(** The file can be opened once; any later open fails (the file was
    removed, or its permissions changed, in between). *)
Definition engine_opens_once : Driver :=
  mkDriver
    (fun h _ _ => match h with [] => QSqlError.none | _ => cannot_open end)
    (fun _ _ => reply_ok []).


(** The connection that [Database("cache.db", ReadWrite | Create)]
    yields on an engine that opens the file. *)
Definition connection : Database.t :=
  Database.mk (Some (DatabaseImpl.mk
    (QSqlDatabase.mk "" "cache.db" true QSqlError.none [EvOpen "cache.db" ""]))).

(** The statement that [prepare("SELECT 1")] yields on [engine]. *)
Definition select_1 : Statement.t :=
  holding (QSqlQuery.mk "SELECT 1" [] QSqlError.none true
             [[QVariant.Int QVariant.Int64 1]] (-1) QVariant.Invalid 0).

(** The statement that [prepare("INSERT INTO t VALUES (?,?)")] yields on
    an engine that accepts it. *)
Definition insert_2 : Statement.t :=
  holding (QSqlQuery.mk "INSERT INTO t VALUES (?,?)" [] QSqlError.none true
             [] (-1) QVariant.Invalid 0).

(** [insert_2] after bind(0, int64_t(7)). *)
Definition insert_2_bound : Statement.t :=
  holding (QSqlQuery.mk "INSERT INTO t VALUES (?,?)"
             [QVariant.Int QVariant.Int64 7] QSqlError.none true
             [] (-1) QVariant.Invalid 0).

(** The transaction that [Transaction(connection, Deferred)] yields. *)
Definition transaction : Transaction.t :=
  Transaction.mk
    (Database.mk (Some (DatabaseImpl.mk
       (QSqlDatabase.mk "" "cache.db" true QSqlError.none
          [EvExec "BEGIN DEFERRED TRANSACTION"; EvOpen "cache.db" ""]))))
    true.
End Examples.

(** ** Statements and transactions over their life *)

(** A statement that has its StatementImpl and whose query reports no
    error. *)
Definition prepared (s : Statement.t) : Prop :=
  exists q, s = holding q /\ no_error q.

(** The statements a caller can come to hold: what [prepare] returned,
    followed by any calls of the member functions that change or check
    the statement, whatever their arguments and outcomes; the generic
    bind at the positions Qt's bindValue is defined for, the non-negative
    ones. *)
Inductive from_prepare : Statement.t -> Prop :=
| fp_prepare drv sql c c' s :
    Statement.prepare drv sql c = (Ret s, c') -> from_prepare s
| fp_bind offset value s r s' :
    from_prepare s -> 0 <= offset ->
    Statement.bind offset value s = (r, s') -> from_prepare s'
| fp_bind_text offset value length retain s r s' :
    from_prepare s ->
    Statement.bind_text offset value length retain s = (r, s') -> from_prepare s'
| fp_bindBlob offset value length retain s r s' :
    from_prepare s ->
    Statement.bindBlob offset value length retain s = (r, s') -> from_prepare s'
| fp_run s r s' :
    from_prepare s -> Statement.run s = (r, s') -> from_prepare s'
| fp_get offset s r s' :
    from_prepare s -> Statement.boundValue offset s = (r, s') -> from_prepare s'
| fp_reset s r s' :
    from_prepare s -> Statement.reset s = (r, s') -> from_prepare s'
| fp_clearBindings s r s' :
    from_prepare s -> Statement.clearBindings s = (r, s') -> from_prepare s'
| fp_changes s r s' :
    from_prepare s -> Statement.changes s = (r, s') -> from_prepare s'.

(** The statement the constructor of Transaction executes for a mode. *)
Definition begin_statement (mode : Transaction.Mode) : string :=
  match mode with
  | Transaction.Deferred => "BEGIN DEFERRED TRANSACTION"
  | Transaction.Immediate => "BEGIN IMMEDIATE TRANSACTION"
  | Transaction.Exclusive => "BEGIN EXCLUSIVE TRANSACTION"
  end.

(** A connection that has its DatabaseImpl, over the Qt connection [d]. *)
Definition connected (d : QSqlDatabase.t) : Database.t :=
  Database.mk (Some (DatabaseImpl.mk d)).

(** The Exception built from a QSqlError, as every throw site builds it. *)
Definition exception_of (e : QSqlError.t) : exn :=
  Exception (ErrorType_int (QSqlError.type e)) (QSqlError.text e).

(** ** The QtSql model: binds *)

Lemma boundValue_bindValue (pos : Z) (val : QVariant.t) (q : QSqlQuery.t) :
  0 <= pos -> QSqlQuery.boundValue pos (QSqlQuery.bindValue pos val q) = val.
Proof.
  intros Hpos. unfold QSqlQuery.boundValue, QSqlQuery.bindValue.
  destruct (Z.ltb_spec pos 0) as [Hneg | _]; [lia |]. cbn.
  set (i := Z.to_nat pos).
  destruct (Nat.leb_spec (length (QSqlQuery.boundValues q)) i) as [Hle | Hlt].
  - rewrite list_lookup_insert_eq; [reflexivity |].
    rewrite length_resize. lia.
  - rewrite list_lookup_insert_eq; [reflexivity | assumption].
Qed.

Lemma boundValue_bindValue_other (pos pos' : Z) (val : QVariant.t)
    (q : QSqlQuery.t) :
  0 <= pos' -> pos <> pos' ->
  (Z.to_nat pos' < length (QSqlQuery.boundValues q))%nat ->
  QSqlQuery.boundValue pos' (QSqlQuery.bindValue pos val q)
  = QSqlQuery.boundValue pos' q.
Proof.
  intros Hpos' Hne Hin. unfold QSqlQuery.boundValue, QSqlQuery.bindValue.
  destruct (Z.ltb_spec pos' 0) as [Hneg | _]; [lia |].
  destruct (Z.ltb_spec pos 0) as [_ | Hpos]; [reflexivity |]. cbn.
  assert (Hi : Z.to_nat pos <> Z.to_nat pos') by lia.
  rewrite list_lookup_insert_ne by exact Hi.
  destruct (Nat.leb_spec (length (QSqlQuery.boundValues q)) (Z.to_nat pos));
    [| reflexivity].
  rewrite lookup_resize; [reflexivity | lia | assumption].
Qed.

Lemma bindValue_lastError (pos : Z) (val : QVariant.t) (q : QSqlQuery.t) :
  QSqlQuery.lastError (QSqlQuery.bindValue pos val q) = QSqlQuery.lastError q.
Proof.
  unfold QSqlQuery.bindValue. destruct (pos <? 0); reflexivity.
Qed.

Lemma boundValue_with_rows (pos : Z) rows at_ (q : QSqlQuery.t) :
  QSqlQuery.boundValue pos (with_rows rows at_ q) = QSqlQuery.boundValue pos q.
Proof. reflexivity. Qed.

Lemma boundValue_fresh (pos : Z) :
  QSqlQuery.boundValue pos QSqlQuery.fresh = QVariant.Invalid.
Proof.
  unfold QSqlQuery.boundValue. destruct (pos <? 0); [reflexivity |].
  cbn. rewrite lookup_nil. reflexivity.
Qed.

(** ** Statements: checkError, bind and get *)

Lemma checkError_no_error (q : QSqlQuery.t) :
  no_error q ->
  StatementImpl.checkError (StatementImpl.mk q) = (Ret tt, StatementImpl.mk q).
Proof.
  unfold no_error. intros H.
  unfold StatementImpl.checkError, m_bind, gets. cbn.
  rewrite bool_decide_eq_true_2 by exact H. reflexivity.
Qed.

Lemma bind_stores (offset : Z) (value : QVariant.t) (q : QSqlQuery.t) :
  no_error q ->
  Statement.bind offset value (holding q)
  = (Ret tt, holding (QSqlQuery.bindValue offset value q)).
Proof.
  intros H. unfold Statement.bind, holding, m_bind, assert. cbn.
  unfold Statement.on_impl, zoom, modify. cbn.
  rewrite bindValue_lastError, bool_decide_eq_true_2 by exact H.
  reflexivity.
Qed.

Lemma boundValue_reads (offset : Z) (q : QSqlQuery.t) :
  no_error q ->
  Statement.boundValue offset (holding q)
  = (Ret (QSqlQuery.boundValue offset q), holding q).
Proof.
  intros H. unfold Statement.boundValue, holding, m_bind, assert. cbn.
  unfold Statement.on_impl, zoom, gets. cbn.
  rewrite bool_decide_eq_true_2 by exact H. reflexivity.
Qed.

(** A statement that [prepare] returns holds a query without error: the
    constructor of StatementImpl throws otherwise. *)
Lemma prepare_no_error (drv : Driver) (sql : string) (c c' : Database.t)
    (s : Statement.t) :
  Statement.prepare drv sql c = (Ret s, c') ->
  exists q, s = holding q /\ no_error q.
Proof.
  unfold Statement.prepare, Statement.ctor, m_bind, assert.
  destruct c as [[[d] |]]; cbn; [| discriminate].
  unfold Database.on_db, zoom, StatementImpl.ctor, m_bind, call. cbn.
  destruct (QSqlDatabase.query drv sql d) as [q d'] eqn:Hq.
  unfold StatementImpl.checkError, m_bind, gets, throw, m_ret. cbn.
  destruct (bool_decide (QSqlError.type (QSqlQuery.lastError q) = NoError)) eqn:He;
    cbn; [| discriminate].
  intros [= <- <-]. exists q. split; [reflexivity |].
  apply bool_decide_eq_true_1 in He. exact He.
Qed.

(** The generic [bind] keeps the query free of error, so that a statement
    stays in the states [prepare] yields. *)
Lemma bind_no_error (offset : Z) (value : QVariant.t) (q : QSqlQuery.t) :
  no_error q -> no_error (QSqlQuery.bindValue offset value q).
Proof. unfold no_error. rewrite bindValue_lastError. auto. Qed.

Ltac run_statement :=
  unfold holding, m_bind, assert, Statement.on_query, Statement.on_impl,
    zoom, gets, modify, m_ret, throw; cbn.

Lemma run_false (q : QSqlQuery.t) :
  Statement.run (holding q) = (Ret false, holding q).
Proof. reflexivity. Qed.

Lemma run_false_again (s s' : Statement.t) :
  Statement.run s = (Ret false, s') -> Statement.run s' = (Ret false, s').
Proof.
  unfold Statement.run. run_statement.
  destruct (Statement.has_impl s) eqn:Hs; cbn; [| discriminate].
  intros [= <-]. rewrite Hs. reflexivity.
Qed.

Lemma ctor_example :
  Database.ctor Examples.engine Examples.ReadOnly Examples.SharedCache
    "cache.db" 6 = Ret Examples.connection.
Proof. reflexivity. Qed.

(** C1: run() is to return true once for each available row.  It is a
    placeholder that returns false whatever the query holds: on the
    statement that prepare("SELECT 1") yields, whose result set has one
    row to step to, the first call of run() already returns false. *)
Theorem run_false_with_a_row_available :
  fst (Statement.prepare Examples.engine "SELECT 1" Examples.connection)
    = Ret Examples.select_1 /\
  row_available Examples.select_1 = true /\
  Statement.run Examples.select_1 = (Ret false, Examples.select_1).
Proof. repeat split. Qed.

(** *** The generic bind and get round-trip *)

Lemma value_int_stored qconvert (ty : QVariant.IntType) (z : Z) :
  QVariant.value_int qconvert ty (QVariant.Int ty z) = z.
Proof.
  cbn. destruct (decide (ty = ty)); [reflexivity | contradiction].
Qed.

Section RoundTrip.
Variable qconvert : QVariant.t -> QVariant.MetaType -> QVariant.t.
Variables to_time_t from_time_t : Z -> Z.
Variable q : QSqlQuery.t.
Variable offset : Z.
Hypothesis Hq : no_error q.
Hypothesis Hoffset : 0 <= offset.

Lemma bind_then_boundValue (value : QVariant.t) :
  (Statement.bind offset value ;; Statement.boundValue offset) (holding q)
  = (Ret value, holding (QSqlQuery.bindValue offset value q)).
Proof.
  unfold m_bind at 1. rewrite bind_stores by exact Hq.
  rewrite boundValue_reads by (apply bind_no_error; exact Hq).
  rewrite boundValue_bindValue by exact Hoffset. reflexivity.
Qed.

Ltac round_trip get :=
  unfold get; unfold m_bind at 1;
  rewrite bind_stores by exact Hq;
  unfold m_bind;
  rewrite boundValue_reads by (apply bind_no_error; exact Hq);
  rewrite boundValue_bindValue by exact Hoffset;
  cbn -[QVariant.value_int]; rewrite ?value_int_stored.

Lemma bind_get_int (ty : QVariant.IntType) (value : Z) :
  fst ((Statement.bind_int ty offset value ;;
        Statement.get_int qconvert ty offset) (holding q)) = Ret value.
Proof.
  unfold Statement.bind_int. round_trip Statement.get_int. reflexivity.
Qed.

Lemma bind_get_double (value : Z) :
  fst ((Statement.bind_double offset value ;;
        Statement.get_double qconvert offset) (holding q)) = Ret value.
Proof.
  unfold Statement.bind_double. round_trip Statement.get_double. reflexivity.
Qed.

Lemma bind_get_bool (value : bool) :
  fst ((Statement.bind_bool offset value ;;
        Statement.get_bool qconvert offset) (holding q)) = Ret value.
Proof.
  unfold Statement.bind_bool. round_trip Statement.get_bool. reflexivity.
Qed.

Lemma bind_get_time_point (value : Z) :
  from_time_t (to_time_t value) = value ->
  fst ((Statement.bind_time_point to_time_t offset value ;;
        Statement.get_time_point qconvert from_time_t offset) (holding q))
  = Ret value.
Proof.
  intros Hrt. unfold Statement.bind_time_point, Statement.bind_int.
  round_trip Statement.get_time_point. rewrite Hrt. reflexivity.
Qed.

Lemma bind_get_optional_string (value : option string) :
  fst ((Statement.bind_optional_string offset value ;;
        Statement.get_optional_string qconvert offset) (holding q))
  = Ret (fromStdString <$> value).
Proof.
  destruct value as [v |]; unfold Statement.bind_optional_string,
    Statement.bind_nullptr; round_trip Statement.get_optional_string;
    reflexivity.
Qed.

Lemma bind_get_optional_time_point (value : option Z) :
  (forall v, value = Some v -> from_time_t (to_time_t v) = v) ->
  fst ((Statement.bind_optional_time_point to_time_t offset value ;;
        Statement.get_optional_time_point qconvert from_time_t offset)
         (holding q))
  = Ret value.
Proof.
  intros Hrt.
  destruct value as [v |]; unfold Statement.bind_optional_time_point,
    Statement.bind_time_point, Statement.bind_int, Statement.bind_nullptr;
    round_trip Statement.get_optional_time_point; [| reflexivity].
  rewrite Hrt; reflexivity.
Qed.

(** A bound null reads back as an absent optional of each kind. *)
Lemma bind_nullptr_get_optional :
  fst ((Statement.bind_nullptr offset ;;
        Statement.get_optional_int64 qconvert offset) (holding q)) = Ret None
  /\ fst ((Statement.bind_nullptr offset ;;
        Statement.get_optional_double qconvert offset) (holding q)) = Ret None
  /\ fst ((Statement.bind_nullptr offset ;;
        Statement.get_optional_string qconvert offset) (holding q)) = Ret None.
Proof.
  unfold Statement.bind_nullptr. repeat split.
  - round_trip Statement.get_optional_int64. reflexivity.
  - round_trip Statement.get_optional_double. reflexivity.
  - round_trip Statement.get_optional_string. reflexivity.
Qed.
End RoundTrip.

(** *** Text and blobs *)

(** Within the length limit the text and blob overloads of bind change
    nothing. *)
Lemma bind_text_nothing offset value length retain (q : QSqlQuery.t) :
  length <= Statement.int_max ->
  Statement.bind_text offset value length retain (holding q)
  = (Ret tt, holding q).
Proof.
  intros H. unfold Statement.bind_text. run_statement.
  destruct (Z.ltb_spec Statement.int_max length); [lia | reflexivity].
Qed.

Lemma bindBlob_nothing offset value length retain (q : QSqlQuery.t) :
  length <= Statement.int_max ->
  Statement.bindBlob offset value length retain (holding q)
  = (Ret tt, holding q).
Proof.
  intros H. unfold Statement.bindBlob. run_statement.
  destruct (Z.ltb_spec Statement.int_max length); [lia | reflexivity].
Qed.

(** C2: bind(i, v) followed by get<T>(i) is to return v for every
    supported type.  The text and blob overloads of bind are placeholders
    that store nothing: on the statement of an INSERT with two parameters,
    bind(0, std::string("a"), true) followed by get<std::string>(0) returns
    the empty string, and bindBlob of one byte followed by
    get<std::vector<uint8_t>>(0) the empty vector; the same text bound
    through the optional<std::string> overload is read back. *)
Theorem bind_text_get_string_empty :
  fst (Statement.prepare Examples.engine "INSERT INTO t VALUES (?,?)"
         Examples.connection) = Ret Examples.insert_2
  /\ (Statement.bind_string 0 "a" true ;;
   Statement.get_string Examples.no_conversion 0) Examples.insert_2
  = (Ret "", Examples.insert_2)
  /\ (Statement.bindBlob_vector 0 [Byte.x61] true ;;
   Statement.get_bytes Examples.no_conversion 0) Examples.insert_2
  = (Ret [], Examples.insert_2)
  /\ fst ((Statement.bind_optional_string 0 (Some "a") ;;
   Statement.get_string Examples.no_conversion 0) Examples.insert_2)
  = Ret "a".
Proof. repeat split. Qed.

(** C10: get<T>(i) reads parameter slot i of the bound values, not a
    column of the result.  Each of the gets, the generic one at its
    integer, double, bool and byte vector instances and every
    specialisation, returns its conversion of boundValue(i); the result
    set and the cursor of the query have no part in it; and after
    bind(i, v) it returns its conversion of v. *)
Theorem get_reads_bound_parameter
    (qconvert : QVariant.t -> QVariant.MetaType -> QVariant.t)
    (from_time_t : Z -> Z)
    (ty : QVariant.IntType) (offset : Z) (q : QSqlQuery.t)
    (rows : list (list QVariant.t)) (at_ : Z) (v : QVariant.t) :
  no_error q -> 0 <= offset ->
  Statement.get_int qconvert ty offset (holding q)
    = (Ret (QVariant.value_int qconvert ty (QSqlQuery.boundValue offset q)),
       holding q)
  /\ Statement.get_double qconvert offset (holding q)
    = (Ret (QVariant.value_double qconvert (QSqlQuery.boundValue offset q)),
       holding q)
  /\ Statement.get_bool qconvert offset (holding q)
    = (Ret (QVariant.value_bool qconvert (QSqlQuery.boundValue offset q)),
       holding q)
  /\ Statement.get_bytes qconvert offset (holding q)
    = (Ret (QVariant.value_bytes qconvert (QSqlQuery.boundValue offset q)),
       holding q)
  /\ Statement.get_string qconvert offset (holding q)
    = (Ret (QVariant.toString qconvert (QSqlQuery.boundValue offset q)),
       holding q)
  /\ Statement.get_time_point qconvert from_time_t offset (holding q)
    = (Ret (from_time_t (QVariant.value_int qconvert QVariant.Int64 (QSqlQuery.boundValue offset q))),
       holding q)
  /\ Statement.get_optional_int64 qconvert offset (holding q)
    = (Ret (if QVariant.isNull (QSqlQuery.boundValue offset q) then None else Some (QVariant.value_int qconvert QVariant.Int64 (QSqlQuery.boundValue offset q))),
       holding q)
  /\ Statement.get_optional_double qconvert offset (holding q)
    = (Ret (if QVariant.isNull (QSqlQuery.boundValue offset q) then None else Some (QVariant.value_double qconvert (QSqlQuery.boundValue offset q))),
       holding q)
  /\ Statement.get_optional_string qconvert offset (holding q)
    = (Ret (if QVariant.isNull (QSqlQuery.boundValue offset q) then None else Some (QVariant.toString qconvert (QSqlQuery.boundValue offset q))),
       holding q)
  /\ Statement.get_optional_time_point qconvert from_time_t offset (holding q)
    = (Ret (if QVariant.isNull (QSqlQuery.boundValue offset q) then None else Some (from_time_t (QVariant.value_int qconvert QVariant.Int64 (QSqlQuery.boundValue offset q)))),
       holding q)
  /\ fst (Statement.get_int qconvert ty offset (holding (with_rows rows at_ q)))
    = fst (Statement.get_int qconvert ty offset (holding q))
  /\ fst (Statement.get_double qconvert offset (holding (with_rows rows at_ q)))
    = fst (Statement.get_double qconvert offset (holding q))
  /\ fst (Statement.get_bool qconvert offset (holding (with_rows rows at_ q)))
    = fst (Statement.get_bool qconvert offset (holding q))
  /\ fst (Statement.get_bytes qconvert offset (holding (with_rows rows at_ q)))
    = fst (Statement.get_bytes qconvert offset (holding q))
  /\ fst (Statement.get_string qconvert offset (holding (with_rows rows at_ q)))
    = fst (Statement.get_string qconvert offset (holding q))
  /\ fst (Statement.get_time_point qconvert from_time_t offset (holding (with_rows rows at_ q)))
    = fst (Statement.get_time_point qconvert from_time_t offset (holding q))
  /\ fst (Statement.get_optional_int64 qconvert offset (holding (with_rows rows at_ q)))
    = fst (Statement.get_optional_int64 qconvert offset (holding q))
  /\ fst (Statement.get_optional_double qconvert offset (holding (with_rows rows at_ q)))
    = fst (Statement.get_optional_double qconvert offset (holding q))
  /\ fst (Statement.get_optional_string qconvert offset (holding (with_rows rows at_ q)))
    = fst (Statement.get_optional_string qconvert offset (holding q))
  /\ fst (Statement.get_optional_time_point qconvert from_time_t offset (holding (with_rows rows at_ q)))
    = fst (Statement.get_optional_time_point qconvert from_time_t offset (holding q))
  /\ fst ((Statement.bind offset v ;;
        Statement.get_int qconvert ty offset)
         (holding (with_rows rows at_ q)))
    = Ret (QVariant.value_int qconvert ty v)
  /\ fst ((Statement.bind offset v ;;
        Statement.get_double qconvert offset)
         (holding (with_rows rows at_ q)))
    = Ret (QVariant.value_double qconvert v)
  /\ fst ((Statement.bind offset v ;;
        Statement.get_bool qconvert offset)
         (holding (with_rows rows at_ q)))
    = Ret (QVariant.value_bool qconvert v)
  /\ fst ((Statement.bind offset v ;;
        Statement.get_bytes qconvert offset)
         (holding (with_rows rows at_ q)))
    = Ret (QVariant.value_bytes qconvert v)
  /\ fst ((Statement.bind offset v ;;
        Statement.get_string qconvert offset)
         (holding (with_rows rows at_ q)))
    = Ret (QVariant.toString qconvert v)
  /\ fst ((Statement.bind offset v ;;
        Statement.get_time_point qconvert from_time_t offset)
         (holding (with_rows rows at_ q)))
    = Ret (from_time_t (QVariant.value_int qconvert QVariant.Int64 v))
  /\ fst ((Statement.bind offset v ;;
        Statement.get_optional_int64 qconvert offset)
         (holding (with_rows rows at_ q)))
    = Ret (if QVariant.isNull v then None else Some (QVariant.value_int qconvert QVariant.Int64 v))
  /\ fst ((Statement.bind offset v ;;
        Statement.get_optional_double qconvert offset)
         (holding (with_rows rows at_ q)))
    = Ret (if QVariant.isNull v then None else Some (QVariant.value_double qconvert v))
  /\ fst ((Statement.bind offset v ;;
        Statement.get_optional_string qconvert offset)
         (holding (with_rows rows at_ q)))
    = Ret (if QVariant.isNull v then None else Some (QVariant.toString qconvert v))
  /\ fst ((Statement.bind offset v ;;
        Statement.get_optional_time_point qconvert from_time_t offset)
         (holding (with_rows rows at_ q)))
    = Ret (if QVariant.isNull v then None else Some (from_time_t (QVariant.value_int qconvert QVariant.Int64 v))).
Proof.
  intros Hq Hoffset.
  assert (Hq' : no_error (with_rows rows at_ q)) by exact Hq.
  unfold Statement.get_int, Statement.get_double, Statement.get_bool,
    Statement.get_bytes, Statement.get_string, Statement.get_time_point,
    Statement.get_optional_int64, Statement.get_optional_double,
    Statement.get_optional_string, Statement.get_optional_time_point.
  repeat split; unfold m_bind;
    rewrite ?bind_stores by assumption;
    rewrite ?boundValue_reads by (try apply bind_no_error; assumption);
    rewrite ?boundValue_bindValue by assumption;
    rewrite ?boundValue_with_rows;
    try destruct (QVariant.isNull (QSqlQuery.boundValue offset q));
    try destruct (QVariant.isNull v);
    reflexivity.
Qed.

Lemma get_reads_bound_parameter_witness :
  no_error (QSqlQuery.mk "SELECT 1" [] QSqlError.none true
              [[QVariant.Int QVariant.Int64 1]] (-1) QVariant.Invalid 0)
  /\ 0 <= 0
  /\ fst ((Statement.bind 0 (QVariant.Int QVariant.Int64 7) ;;
           Statement.get_int Examples.no_conversion QVariant.Int64 0)
            (holding (with_rows [[QVariant.Int QVariant.Int64 1]] 0
               (QSqlQuery.mk "SELECT 1" [] QSqlError.none true
                  [[QVariant.Int QVariant.Int64 1]] (-1) QVariant.Invalid 0))))
     = Ret 7.
Proof.
  split; [reflexivity |]. split; [lia |].
  apply (get_reads_bound_parameter Examples.no_conversion (fun t => t)
           QVariant.Int64 0
           (QSqlQuery.mk "SELECT 1" [] QSqlError.none true
              [[QVariant.Int QVariant.Int64 1]] (-1) QVariant.Invalid 0)
           [[QVariant.Int QVariant.Int64 1]] 0 (QVariant.Int QVariant.Int64 7));
    [reflexivity | lia].
Defined.

(** *** The length limit of text and blobs *)

(** C6: a text or blob whose length exceeds the largest 32-bit signed
    value is refused with the range error, and the statement, with all its
    bound parameters, is as before the call. *)
Theorem bind_too_long_throws (offset : Z) (text : string)
    (blob : list Byte.byte) (length : Z) (retain : bool) (q : QSqlQuery.t) :
  2147483647 < length ->
  Statement.bind_text offset text length retain (holding q)
    = (Throw (range_error "value too long for sqlite3_bind_text"), holding q)
  /\ Statement.bindBlob offset blob length retain (holding q)
    = (Throw (range_error "value too long for sqlite3_bind_text"), holding q)
  /\ bound (snd (Statement.bind_text offset text length retain (holding q)))
    = QSqlQuery.boundValues q
  /\ bound (snd (Statement.bindBlob offset blob length retain (holding q)))
    = QSqlQuery.boundValues q.
Proof.
  intros Hlen.
  assert (Ht : Statement.bind_text offset text length retain (holding q)
    = (Throw (range_error "value too long for sqlite3_bind_text"), holding q)).
  { unfold Statement.bind_text. run_statement.
    destruct (Z.ltb_spec Statement.int_max length) as [_ | Hle];
      [reflexivity | unfold Statement.int_max in Hle; lia]. }
  assert (Hb : Statement.bindBlob offset blob length retain (holding q)
    = (Throw (range_error "value too long for sqlite3_bind_text"), holding q)).
  { unfold Statement.bindBlob. run_statement.
    destruct (Z.ltb_spec Statement.int_max length) as [_ | Hle];
      [reflexivity | unfold Statement.int_max in Hle; lia]. }
  rewrite Ht, Hb. repeat split.
Qed.

Lemma bind_too_long_throws_witness :
  2147483647 < 2147483648
  /\ Statement.bind_text 1 "b" 2147483648 true Examples.insert_2_bound
     = (Throw (range_error "value too long for sqlite3_bind_text"),
        Examples.insert_2_bound).
Proof.
  split; [lia |].
  apply (bind_too_long_throws 1 "b" [] 2147483648 true
           (QSqlQuery.mk "INSERT INTO t VALUES (?,?)"
              [QVariant.Int QVariant.Int64 7] QSqlError.none true
              [] (-1) QVariant.Invalid 0)); lia.
Defined.

(** *** reset and clearBindings *)

Lemma reset_clears (q : QSqlQuery.t) :
  Statement.reset (holding q) = (Ret tt, holding QSqlQuery.fresh).
Proof. reflexivity. Qed.

(** C4, as stated, fails: after bind(0, int64_t(7)) the statement reads 7
    at slot 0; after reset() the slot is gone and reads as 0. *)
Lemma reset_drops_bindings :
  fst (Statement.bind_int QVariant.Int64 0 7 Examples.insert_2) = Ret tt
  /\ snd (Statement.bind_int QVariant.Int64 0 7 Examples.insert_2)
     = Examples.insert_2_bound
  /\ fst (Statement.get_int Examples.no_conversion QVariant.Int64 0
            Examples.insert_2_bound) = Ret 7
  /\ fst ((Statement.reset ;;
           Statement.get_int Examples.no_conversion QVariant.Int64 0)
            Examples.insert_2_bound) = Ret 0
  /\ ~ reset_keeps_bindings Examples.insert_2_bound.
Proof.
  repeat split.
  intros H. specialize (H _ (reset_clears _)). discriminate H.
Qed.

(** C4, amended: reset() discards the row cursor and the bound parameter
    values alike: the statement holds a fresh query afterwards, with no
    result row to step to and every parameter slot unbound. *)
Theorem reset_discards_cursor_and_bindings (q : QSqlQuery.t) (offset : Z) :
  Statement.reset (holding q) = (Ret tt, holding QSqlQuery.fresh)
  /\ row_available (holding QSqlQuery.fresh) = false
  /\ bound (holding QSqlQuery.fresh) = []
  /\ QSqlQuery.boundValue offset QSqlQuery.fresh = QVariant.Invalid.
Proof.
  repeat split. apply boundValue_fresh.
Qed.

(** C8: reset() and clearBindings() are the same operation: they agree on
    every statement, moved-from ones included, and both leave a statement
    that holds a fresh query, without text, bound values or rows. *)
Theorem reset_clearBindings_same (s : Statement.t) (q : QSqlQuery.t) :
  Statement.reset s = Statement.clearBindings s
  /\ Statement.reset (holding q) = (Ret tt, holding QSqlQuery.fresh)
  /\ Statement.clearBindings (holding q) = (Ret tt, holding QSqlQuery.fresh)
  /\ QSqlQuery.boundValues QSqlQuery.fresh = []
  /\ QSqlQuery.lastQuery QSqlQuery.fresh = "".
Proof. repeat split. Qed.

(** ** Connections *)

Ltac run_database :=
  unfold m_bind, assert, Database.on_db, Transaction.on_db,
    Transaction.set_needRollback, zoom, call, gets, modify, m_ret, throw; cbn.

Lemma ctor_options (drv : Driver) (ReadOnly SharedCache : Z) (file : string)
    (flags : Z) :
  let e := drv_open drv [] file (open_options ReadOnly SharedCache flags) in
  DatabaseImpl.ctor drv ReadOnly SharedCache file flags
  = if decide (QSqlError.type e = NoError)
    then Ret (DatabaseImpl.mk
           (QSqlDatabase.mk (open_options ReadOnly SharedCache flags) file true
              QSqlError.none
              [EvOpen file (open_options ReadOnly SharedCache flags)]))
    else Throw (Exception (ErrorType_int (QSqlError.type e)) (QSqlError.text e)).
Proof.
  unfold DatabaseImpl.ctor, open_options, QSqlDatabase.open.
  destruct (negb (Z.land flags ReadOnly =? 0)),
    (negb (Z.land flags SharedCache =? 0));
    cbv [String.append isEmpty]; cbn;
    match goal with
    | |- context [decide (QSqlError.type ?e = NoError)] =>
        destruct (decide (QSqlError.type e = NoError))
    end; reflexivity.
Qed.

(** When no flag is set the options are empty, and never malformed. *)
Lemma open_options_none (ReadOnly SharedCache flags : Z) :
  Z.land flags ReadOnly = 0 -> Z.land flags SharedCache = 0 ->
  open_options ReadOnly SharedCache flags = "".
Proof. unfold open_options. intros -> ->. reflexivity. Qed.


Lemma c_str_no_nul (s : string) :
  (forall c, In c (list_ascii_of_string s) -> c <> Ascii.zero) -> c_str s = s.
Proof.
  induction s as [| c rest IH]; intros H; [reflexivity |]. cbn.
  destruct (Ascii.eqb_spec c Ascii.zero) as [-> | _].
  - exfalso. apply (H Ascii.zero); [left; reflexivity | reflexivity].
  - rewrite IH; [reflexivity |]. intros c' Hc'. apply H. right. exact Hc'.
Qed.




(** The other half: an accepted open returns an open connection. *)
Lemma open_accepted_returns (drv : Driver) (ReadOnly SharedCache : Z)
    (file : string) (flags : Z) :
  QSqlError.type
    (drv_open drv [] (c_str file) (open_options ReadOnly SharedCache flags))
  = NoError ->
  exists c, Database.ctor drv ReadOnly SharedCache file flags = Ret c
    /\ connection_open c = true
    /\ connection_options c = open_options ReadOnly SharedCache flags.
Proof.
  intros He. unfold Database.ctor. rewrite ctor_options. cbn zeta.
  destruct (decide _) as [_ | Hn]; [| contradiction].
  eexists. split; [reflexivity |]. split; reflexivity.
Qed.

(** What setBusyTimeout does to an open connection. *)
Lemma setBusyTimeout_steps (drv : Driver) (toString : Z -> string)
    (timeout : Z) (d : QSqlDatabase.t) :
  QSqlDatabase.isOpen d = true ->
  let options := timeout_options toString timeout (QSqlDatabase.connectOptions d) in
  let name := QSqlDatabase.databaseName d in
  let h := EvClose :: QSqlDatabase.history d in
  let e := drv_open drv h name options in
  Database.setBusyTimeout drv toString timeout
    (Database.mk (Some (DatabaseImpl.mk d)))
  = if decide (QSqlError.type e = NoError)
    then (Ret tt,
          Database.mk (Some (DatabaseImpl.mk
            (QSqlDatabase.mk options name true (QSqlDatabase.lastError d)
               (EvOpen name options :: h)))))
    else (Throw (Exception (ErrorType_int (QSqlError.type e)) (QSqlError.text e)),
          Database.mk (Some (DatabaseImpl.mk
            (QSqlDatabase.mk options name false e (EvOpen name options :: h))))).
Proof.
  intros Hopen. destruct d as [o n io le h0]. cbn in Hopen. subst io.
  unfold Database.setBusyTimeout, timeout_options, QSqlDatabase.open.
  run_database.
  destruct (isEmpty o); cbn;
    match goal with
    | |- context [decide (QSqlError.type ?e = NoError)] =>
        destruct (decide (QSqlError.type e = NoError))
    end; reflexivity.
Qed.

(** C3, as stated, fails: on a file that cannot be opened a second time
    setBusyTimeout throws and leaves the connection closed. *)
Lemma setBusyTimeout_leaves_closed :
  Database.ctor Examples.engine_opens_once Examples.ReadOnly
    Examples.SharedCache "cache.db" 6 = Ret Examples.connection
  /\ connection_open Examples.connection = true
  /\ fst (Database.setBusyTimeout Examples.engine_opens_once pretty 5000
            Examples.connection)
     = Throw (Exception 1 "unable to open database file")
  /\ connection_open
       (snd (Database.setBusyTimeout Examples.engine_opens_once pretty 5000
               Examples.connection)) = false
  /\ ~ setBusyTimeout_atomic Examples.engine_opens_once pretty 5000
         Examples.connection.
Proof.
  repeat split.
  unfold setBusyTimeout_atomic.
  destruct (Database.setBusyTimeout _ _ _ _) as [r c'] eqn:Hrun.
  vm_compute in Hrun. injection Hrun as <- <-.
  intros [[Hret _] | [_ [Hopen _]]]; discriminate.
Qed.

(** C3, amended: setBusyTimeout closes the open connection and reopens it
    with the timeout option appended.  Either the engine accepts, the call
    returns and the connection is open under the new options; or the
    engine refuses, the call throws the engine's error and the connection
    is left closed, the new options already set. *)
Theorem setBusyTimeout_reopens_or_closes (drv : Driver)
    (toString : Z -> string) (timeout : Z) (d : QSqlDatabase.t) :
  QSqlDatabase.isOpen d = true ->
  let c := Database.mk (Some (DatabaseImpl.mk d)) in
  let options := timeout_options toString timeout (QSqlDatabase.connectOptions d) in
  let e := drv_open drv (EvClose :: QSqlDatabase.history d)
             (QSqlDatabase.databaseName d) options in
  let r := fst (Database.setBusyTimeout drv toString timeout c) in
  let c' := snd (Database.setBusyTimeout drv toString timeout c) in
  connection_options c' = options
  /\ asked c'
     = EvOpen (QSqlDatabase.databaseName d) options :: EvClose :: asked c
  /\ (r = Ret tt /\ QSqlError.type e = NoError /\ connection_open c' = true
      \/ r = Throw (Exception (ErrorType_int (QSqlError.type e)) (QSqlError.text e))
         /\ QSqlError.type e <> NoError /\ connection_open c' = false).
Proof.
  intros Hopen c options e r c'. subst r c' c.
  rewrite (setBusyTimeout_steps drv toString timeout d Hopen). cbn zeta.
  fold options. fold e.
  destruct (decide (QSqlError.type e = NoError)) as [He | He]; cbn.
  - split; [reflexivity |]. split; [reflexivity |]. left. auto.
  - split; [reflexivity |]. split; [reflexivity |]. right. auto.
Qed.

Lemma setBusyTimeout_reopens_or_closes_witness :
  QSqlDatabase.isOpen
    (QSqlDatabase.mk "" "cache.db" true QSqlError.none [EvOpen "cache.db" ""])
  = true
  /\ connection_options
       (snd (Database.setBusyTimeout Examples.engine pretty 5000
               Examples.connection))
     = "QSQLITE_BUSY_TIMEOUT=5000".
Proof.
  split; [reflexivity |].
  exact (proj1 (setBusyTimeout_reopens_or_closes Examples.engine pretty 5000
           (QSqlDatabase.mk "" "cache.db" true QSqlError.none
              [EvOpen "cache.db" ""]) eq_refl)).
Defined.

(** ** Transactions *)

(** exec on a connection that has its DatabaseImpl: the statement reaches
    the engine, and the call throws exactly when the engine reports an
    error. *)
Lemma exec_outcome (drv : Driver) (sql : string) (d : QSqlDatabase.t) :
  let r := drv_exec drv (QSqlDatabase.history d) sql in
  Database.exec drv sql (Database.mk (Some (DatabaseImpl.mk d)))
  = (if decide (QSqlError.type (reply_error r) = NoError) then Ret tt
     else Throw (Exception (ErrorType_int (QSqlError.type (reply_error r)))
                           (QSqlError.text (reply_error r))),
     Database.mk (Some (DatabaseImpl.mk (snd (QSqlDatabase.exec drv sql d))))).
Proof.
  unfold Database.exec, QSqlDatabase.exec. run_database.
  destruct (decide (QSqlError.type (reply_error _) = NoError)) as [He | He].
  - rewrite bool_decide_eq_true_2 by exact He. reflexivity.
  - rewrite bool_decide_eq_false_2 by exact He. reflexivity.
Qed.

Lemma exec_asked (drv : Driver) (sql : string) (d : QSqlDatabase.t) :
  asked (snd (Database.exec drv sql (Database.mk (Some (DatabaseImpl.mk d)))))
  = EvExec sql :: QSqlDatabase.history d.
Proof. rewrite exec_outcome. reflexivity. Qed.

Lemma exec_never_asserts_with_impl (drv : Driver) (sql : string)
    (d : QSqlDatabase.t) :
  fst (Database.exec drv sql (Database.mk (Some (DatabaseImpl.mk d))))
  <> AssertFail.
Proof.
  rewrite exec_outcome. cbn. destruct (decide _); discriminate.
Qed.

Lemma transaction_example :
  Transaction.ctor Examples.engine Transaction.Deferred Examples.connection
  = (Ret Examples.transaction, Transaction.db Examples.transaction).
Proof. reflexivity. Qed.

(** commit() and rollback(): the flag is cleared, then the statement is
    executed on the connection, and its outcome is the outcome of the call. *)
Lemma commit_runs (drv : Driver) (txn : Transaction.t) :
  Transaction.commit drv txn
  = (fst (Database.exec drv "COMMIT TRANSACTION" (Transaction.db txn)),
     Transaction.mk
       (snd (Database.exec drv "COMMIT TRANSACTION" (Transaction.db txn)))
       false).
Proof.
  unfold Transaction.commit, m_bind, Transaction.set_needRollback, modify,
    Transaction.on_db, zoom.
  cbn -[Database.exec]. destruct (Database.exec _ _ _); reflexivity.
Qed.

Lemma rollback_runs (drv : Driver) (txn : Transaction.t) :
  Transaction.rollback drv txn
  = (fst (Database.exec drv "ROLLBACK TRANSACTION" (Transaction.db txn)),
     Transaction.mk
       (snd (Database.exec drv "ROLLBACK TRANSACTION" (Transaction.db txn)))
       false).
Proof.
  unfold Transaction.rollback, m_bind, Transaction.set_needRollback, modify,
    Transaction.on_db, zoom.
  cbn -[Database.exec]. destruct (Database.exec _ _ _); reflexivity.
Qed.

Lemma commit_clears_flag (drv : Driver) (txn : Transaction.t) :
  Transaction.needRollback (snd (Transaction.commit drv txn)) = false.
Proof. rewrite commit_runs. reflexivity. Qed.

Lemma rollback_clears_flag (drv : Driver) (txn : Transaction.t) :
  Transaction.needRollback (snd (Transaction.rollback drv txn)) = false.
Proof. rewrite rollback_runs. reflexivity. Qed.

(** The destructor does nothing once the flag is cleared. *)
Lemma dtor_nothing (drv : Driver) (txn : Transaction.t) :
  Transaction.needRollback txn = false ->
  Transaction.dtor drv txn = (Ret tt, txn).
Proof. unfold Transaction.dtor. intros ->. reflexivity. Qed.

(** No exception leaves the destructor, whatever the transaction. *)
Lemma dtor_never_throws (drv : Driver) (txn : Transaction.t) :
  is_throw (fst (Transaction.dtor drv txn)) = false.
Proof.
  unfold Transaction.dtor, try_catch_all.
  destruct (Transaction.needRollback txn); [| reflexivity].
  destruct (Transaction.rollback drv txn) as [[| |] txn']; reflexivity.
Qed.

(** C5: a transaction destroyed with its flag still set executes
    "ROLLBACK TRANSACTION" on its connection, and the destructor returns
    whether the engine accepts the statement or not: rollback() has the
    outcome of that statement, an Exception when the engine refuses it, and
    the destructor catches it. *)
Theorem dtor_rolls_back_and_swallows (drv : Driver) (d : QSqlDatabase.t) :
  let txn := Transaction.mk (Database.mk (Some (DatabaseImpl.mk d))) true in
  fst (Transaction.dtor drv txn) = Ret tt
  /\ asked (Transaction.db (snd (Transaction.dtor drv txn)))
     = EvExec "ROLLBACK TRANSACTION" :: asked (Transaction.db txn)
  /\ Transaction.needRollback (snd (Transaction.dtor drv txn)) = false
  /\ fst (Transaction.rollback drv txn)
     = fst (Database.exec drv "ROLLBACK TRANSACTION" (Transaction.db txn)).
Proof.
  intros txn. subst txn.
  unfold Transaction.dtor, try_catch_all. cbn [Transaction.needRollback].
  rewrite rollback_runs. cbn [Transaction.db]. rewrite exec_outcome. cbn.
  destruct (decide _) as [He | He]; cbn; repeat split; reflexivity.
Qed.

(** What the destructor swallows on a connection whose engine refuses the
    rollback: the explicit rollback() throws there. *)
Lemma dtor_swallows_example :
  fst (Transaction.rollback (Examples.engine_rejecting "ROLLBACK TRANSACTION")
         Examples.transaction)
  = Throw (Exception 2 "database is locked")
  /\ fst (Transaction.dtor (Examples.engine_rejecting "ROLLBACK TRANSACTION")
         Examples.transaction)
  = Ret tt.
Proof. split; reflexivity. Qed.

(** C9: commit() clears the flag before it executes the COMMIT.  When the
    engine rejects the COMMIT, commit() throws with the flag already
    cleared, and the destructor that runs afterwards leaves the
    transaction and its connection as they are: the engine was asked the
    COMMIT and is asked nothing more. *)
Theorem commit_rejected_no_rollback (drv : Driver) (txn txn' : Transaction.t)
    (e : exn) :
  Transaction.commit drv txn = (Throw e, txn') ->
  Transaction.needRollback txn' = false
  /\ asked (Transaction.db txn')
     = EvExec "COMMIT TRANSACTION" :: asked (Transaction.db txn)
  /\ Transaction.dtor drv txn' = (Ret tt, txn')
  /\ asked (Transaction.db (snd (Transaction.dtor drv txn')))
     = asked (Transaction.db txn').
Proof.
  intros Hc.
  assert (Hflag : Transaction.needRollback txn' = false).
  { pose proof (commit_clears_flag drv txn) as H. rewrite Hc in H. exact H. }
  assert (Hasked : asked (Transaction.db txn')
     = EvExec "COMMIT TRANSACTION" :: asked (Transaction.db txn)).
  { revert Hc. rewrite commit_runs.
    destruct txn as [[[[d] |]] flag]; cbn [Transaction.db].
    - rewrite exec_outcome. cbn. destruct (decide _); cbn; [discriminate |].
      intros [= _ <-]. reflexivity.
    - discriminate. }
  rewrite (dtor_nothing drv txn' Hflag). auto.
Qed.

Lemma commit_rejected_no_rollback_witness :
  Transaction.commit (Examples.engine_rejecting "COMMIT TRANSACTION")
    Examples.transaction
  = (Throw (Exception 2 "database is locked"),
     snd (Transaction.commit (Examples.engine_rejecting "COMMIT TRANSACTION")
            Examples.transaction))
  /\ Transaction.dtor (Examples.engine_rejecting "COMMIT TRANSACTION")
       (snd (Transaction.commit (Examples.engine_rejecting "COMMIT TRANSACTION")
               Examples.transaction))
     = (Ret tt,
        snd (Transaction.commit (Examples.engine_rejecting "COMMIT TRANSACTION")
               Examples.transaction)).
Proof.
  split; [reflexivity |].
  apply (commit_rejected_no_rollback
           (Examples.engine_rejecting "COMMIT TRANSACTION")
           Examples.transaction _ (Exception 2 "database is locked")).
  reflexivity.
Defined.

(** ** Further properties of statements *)

Lemma boundValue_bindValue_ne (pos pos' : Z) (val : QVariant.t)
    (q : QSqlQuery.t) :
  pos <> pos' ->
  QSqlQuery.boundValue pos' (QSqlQuery.bindValue pos val q)
  = QSqlQuery.boundValue pos' q.
Proof.
  intros Hne. unfold QSqlQuery.boundValue, QSqlQuery.bindValue.
  destruct (Z.ltb_spec pos' 0) as [_ | Hpos']; [reflexivity |].
  destruct (Z.ltb_spec pos 0) as [_ | Hpos]; [reflexivity |]. cbn.
  assert (Hi : Z.to_nat pos <> Z.to_nat pos') by lia.
  rewrite list_lookup_insert_ne by exact Hi.
  destruct (Nat.leb_spec (length (QSqlQuery.boundValues q)) (Z.to_nat pos))
    as [Hle | Hlt]; [| reflexivity].
  destruct (Nat.lt_ge_cases (Z.to_nat pos') (length (QSqlQuery.boundValues q)))
    as [Hin | Hout].
  - rewrite lookup_resize; [reflexivity | lia | assumption].
  - rewrite (lookup_ge_None_2 (QSqlQuery.boundValues q)) by exact Hout.
    destruct (Nat.lt_ge_cases (Z.to_nat pos') (S (Z.to_nat pos))) as [Hpad | Hfar].
    + rewrite lookup_resize_new by assumption. reflexivity.
    + rewrite lookup_resize_old by assumption. reflexivity.
Qed.

Lemma bindValue_bindValue (pos : Z) (v1 v2 : QVariant.t) (q : QSqlQuery.t) :
  QSqlQuery.bindValue pos v2 (QSqlQuery.bindValue pos v1 q)
  = QSqlQuery.bindValue pos v2 q.
Proof.
  unfold QSqlQuery.bindValue.
  destruct (Z.ltb_spec pos 0) as [Hneg | Hpos].
  - destruct (Z.ltb_spec pos 0); [reflexivity | lia].
  - cbn. destruct (Z.ltb_spec pos 0) as [Hneg | _]; [lia |]. cbn.
    set (i := Z.to_nat pos).
    set (vs := if (length (QSqlQuery.boundValues q) <=? i)%nat
               then resize (S i) QVariant.Invalid (QSqlQuery.boundValues q)
               else QSqlQuery.boundValues q).
    assert (Hlen : (i < length vs)%nat).
    { subst vs. destruct (Nat.leb_spec (length (QSqlQuery.boundValues q)) i);
        [rewrite length_resize; lia | assumption]. }
    destruct (Nat.leb_spec (length (<[i := v1]> vs)) i) as [Hle | _].
    + rewrite length_insert in Hle. lia.
    + rewrite list_insert_insert_eq. reflexivity.
Qed.


(** Reading after a generic bind, for any of the gets. *)
Ltac bound_then_read Hq :=
  unfold m_bind;
  rewrite ?bind_stores by exact Hq;
  rewrite ?boundValue_reads by (try apply bind_no_error; exact Hq);
  cbn -[QVariant.value_int QSqlQuery.bindValue QSqlQuery.boundValue].

(** X1: for the integer types, double and bool, a value bound at a
    non-negative position is the value that get of the same type, and get
    of the optional of that type, read back at that position. *)
Theorem scalar_round_trip
    (qconvert : QVariant.t -> QVariant.MetaType -> QVariant.t)
    (ty : QVariant.IntType) (offset : Z) (q : QSqlQuery.t)
    (z bits : Z) (b : bool) :
  no_error q -> 0 <= offset ->
  fst ((Statement.bind_int ty offset z ;;
        Statement.get_int qconvert ty offset) (holding q)) = Ret z
  /\ fst ((Statement.bind_double offset bits ;;
        Statement.get_double qconvert offset) (holding q)) = Ret bits
  /\ fst ((Statement.bind_bool offset b ;;
        Statement.get_bool qconvert offset) (holding q)) = Ret b
  /\ fst ((Statement.bind_int QVariant.Int64 offset z ;;
        Statement.get_optional_int64 qconvert offset) (holding q)) = Ret (Some z)
  /\ fst ((Statement.bind_double offset bits ;;
        Statement.get_optional_double qconvert offset) (holding q))
     = Ret (Some bits).
Proof.
  intros Hq Hoffset.
  split; [apply bind_get_int; assumption |].
  split; [apply bind_get_double; assumption |].
  split; [apply bind_get_bool; assumption |].
  unfold Statement.bind_int, Statement.bind_double,
    Statement.get_optional_int64, Statement.get_optional_double.
  split; bound_then_read Hq; rewrite boundValue_bindValue by exact Hoffset;
    cbn -[QVariant.value_int]; rewrite ?value_int_stored; reflexivity.
Qed.

Lemma scalar_round_trip_witness :
  no_error (QSqlQuery.mk "INSERT INTO t VALUES (?,?)" [] QSqlError.none true
              [] (-1) QVariant.Invalid 0)
  /\ 0 <= 1
  /\ fst ((Statement.bind_int QVariant.UInt8 1 200 ;;
           Statement.get_int Examples.no_conversion QVariant.UInt8 1)
            Examples.insert_2) = Ret 200.
Proof.
  split; [reflexivity |]. split; [lia |].
  apply (scalar_round_trip Examples.no_conversion QVariant.UInt8 1
           (QSqlQuery.mk "INSERT INTO t VALUES (?,?)" [] QSqlError.none true
              [] (-1) QVariant.Invalid 0) 200 0 true);
    [reflexivity | lia].
Defined.

(** *** Bound strings: QString::fromStdString *)

Lemma utf8_sequence_split (s seq rest : string) :
  utf8_sequence s = Some (seq, rest) ->
  s = seq +:+ rest /\ (String.length rest < String.length s)%nat.
Proof.
  unfold utf8_sequence. destruct s as [| b s]; [discriminate |].
  destruct (byte_value b <? 128).
  { intros [= <- <-]. cbn. split; [reflexivity | lia]. }
  destruct ((byte_value b <=? 193) || (245 <=? byte_value b)); [discriminate |].
  destruct (byte_value b <? 224).
  { destruct s as [| b1 r]; [discriminate |].
    destruct (_ && _); [| discriminate].
    intros [= <- <-]. cbn. split; [reflexivity | lia]. }
  destruct (byte_value b <? 240).
  { destruct s as [| b1 [| b2 r]]; try discriminate.
    destruct (_ && _); [| discriminate].
    intros [= <- <-]. cbn. split; [reflexivity | lia]. }
  destruct s as [| b1 [| b2 [| b3 r]]]; try discriminate.
  destruct (_ && _); [| discriminate].
  intros [= <- <-]. cbn. split; [reflexivity | lia].
Qed.

Lemma convertToUnicode_well_formed (fuel : nat) (s : string) :
  (String.length s <= fuel)%nat ->
  well_formed fuel s = true -> convertToUnicode fuel s = s.
Proof.
  revert s. induction fuel as [| fuel IH]; intros s Hlen Hwf.
  - destruct s; [reflexivity | cbn in Hlen; lia].
  - destruct s as [| b rest]; [reflexivity |].
    cbn [well_formed convertToUnicode] in *.
    destruct (utf8_sequence (String b rest)) as [[seq rest'] |] eqn:Hseq;
      [| discriminate].
    apply utf8_sequence_split in Hseq as [Heq Hshort].
    rewrite IH; [symmetry; exact Heq | cbn in *; lia | exact Hwf].
Qed.

(** On UTF-8 text fromStdString is the identity. *)
Lemma fromStdString_utf8_text (s : string) :
  utf8_text s = true -> fromStdString s = s.
Proof.
  unfold utf8_text, fromStdString. intros H.
  apply andb_true_iff in H as [Hbom Hwf].
  apply bool_decide_eq_true_1 in Hbom. rewrite Hbom.
  apply convertToUnicode_well_formed; [lia | exact Hwf].
Qed.

(** Off UTF-8 text it is not: the byte FF becomes U+FFFD, and a byte
    order mark in front is dropped. *)
Lemma fromStdString_examples :
  fromStdString (String "255" "") = ReplacementCharacter
  /\ fromStdString (String "239" (String "187" (String "191" "a"))) = "a"
  /\ fromStdString (String "226" (String "130" (String "172" "")))
     = String "226" (String "130" (String "172" "")).
Proof. repeat split. Qed.

(** X2: a bound null, and an absent optional string or time point, read
    back as absent through every optional get.  An optional string reads
    back as QString::fromStdString leaves it; a string that is UTF-8 text
    reads back as it was bound, through the optional get and through get
    of the plain string. *)
Theorem null_round_trip
    (qconvert : QVariant.t -> QVariant.MetaType -> QVariant.t)
    (to_time_t from_time_t : Z -> Z) (offset : Z) (q : QSqlQuery.t)
    (text : option string) (s : string) :
  no_error q -> 0 <= offset -> utf8_text s = true ->
  fst ((Statement.bind_nullptr offset ;;
        Statement.get_optional_int64 qconvert offset) (holding q)) = Ret None
  /\ fst ((Statement.bind_nullptr offset ;;
        Statement.get_optional_double qconvert offset) (holding q)) = Ret None
  /\ fst ((Statement.bind_nullptr offset ;;
        Statement.get_optional_string qconvert offset) (holding q)) = Ret None
  /\ fst ((Statement.bind_nullptr offset ;;
        Statement.get_optional_time_point qconvert from_time_t offset)
          (holding q)) = Ret None
  /\ fst ((Statement.bind_optional_time_point to_time_t offset None ;;
        Statement.get_optional_time_point qconvert from_time_t offset)
          (holding q)) = Ret None
  /\ fst ((Statement.bind_optional_string offset None ;;
        Statement.get_optional_string qconvert offset) (holding q)) = Ret None
  /\ fst ((Statement.bind_optional_string offset text ;;
        Statement.get_optional_string qconvert offset) (holding q))
     = Ret (fromStdString <$> text)
  /\ fst ((Statement.bind_optional_string offset (Some s) ;;
        Statement.get_optional_string qconvert offset) (holding q))
     = Ret (Some s)
  /\ fst ((Statement.bind_optional_string offset (Some s) ;;
        Statement.get_string qconvert offset) (holding q)) = Ret s.
Proof.
  intros Hq Hoffset Hs.
  destruct (bind_nullptr_get_optional qconvert q offset Hq Hoffset)
    as (Hi & Hd & Hn).
  split; [exact Hi |]. split; [exact Hd |]. split; [exact Hn |].
  split; [| split; [| split; [| split; [| split]]]].
  - unfold Statement.bind_nullptr, Statement.get_optional_time_point.
    bound_then_read Hq. rewrite boundValue_bindValue by exact Hoffset.
    reflexivity.
  - unfold Statement.bind_optional_time_point, Statement.bind_nullptr,
      Statement.get_optional_time_point.
    bound_then_read Hq. rewrite boundValue_bindValue by exact Hoffset.
    reflexivity.
  - apply (bind_get_optional_string qconvert q offset Hq Hoffset None).
  - apply (bind_get_optional_string qconvert q offset Hq Hoffset text).
  - rewrite (bind_get_optional_string qconvert q offset Hq Hoffset (Some s)).
    cbn [fmap option_fmap option_map]. rewrite (fromStdString_utf8_text s Hs).
    reflexivity.
  - unfold Statement.bind_optional_string, Statement.get_string.
    bound_then_read Hq. rewrite boundValue_bindValue by exact Hoffset.
    cbn [QVariant.toString]. rewrite (fromStdString_utf8_text s Hs).
    reflexivity.
Qed.

Lemma null_round_trip_witness :
  no_error (QSqlQuery.mk "INSERT INTO t VALUES (?,?)" [] QSqlError.none true
              [] (-1) QVariant.Invalid 0)
  /\ 0 <= 0
  /\ utf8_text (String "226" (String "130" (String "172" "5"))) = true
  /\ fst ((Statement.bind_optional_string 0
             (Some (String "226" (String "130" (String "172" "5")))) ;;
           Statement.get_string Examples.no_conversion 0)
            Examples.insert_2)
     = Ret (String "226" (String "130" (String "172" "5"))).
Proof.
  split; [reflexivity |]. split; [lia |]. split; [reflexivity |].
  apply (null_round_trip Examples.no_conversion (fun t => t) (fun t => t) 0
           (QSqlQuery.mk "INSERT INTO t VALUES (?,?)" [] QSqlError.none true
              [] (-1) QVariant.Invalid 0) None
           (String "226" (String "130" (String "172" "5"))));
    [reflexivity | lia | reflexivity].
Defined.

(** X3: a time point is bound as the 64-bit integer to_time_t gives for
    it: an integer get reads that integer, and the time point gets read
    from_time_t of it. *)
Theorem time_point_bound_as_integer
    (qconvert : QVariant.t -> QVariant.MetaType -> QVariant.t)
    (to_time_t from_time_t : Z -> Z) (offset : Z) (q : QSqlQuery.t)
    (value : Z) :
  no_error q -> 0 <= offset ->
  fst ((Statement.bind_time_point to_time_t offset value ;;
        Statement.get_int qconvert QVariant.Int64 offset) (holding q))
    = Ret (to_time_t value)
  /\ fst ((Statement.bind_time_point to_time_t offset value ;;
        Statement.get_time_point qconvert from_time_t offset) (holding q))
    = Ret (from_time_t (to_time_t value))
  /\ fst ((Statement.bind_optional_time_point to_time_t offset (Some value) ;;
        Statement.get_optional_time_point qconvert from_time_t offset)
          (holding q))
    = Ret (Some (from_time_t (to_time_t value))).
Proof.
  intros Hq Hoffset.
  unfold Statement.bind_optional_time_point, Statement.bind_time_point,
    Statement.bind_int, Statement.get_int, Statement.get_time_point,
    Statement.get_optional_time_point.
  repeat split; bound_then_read Hq;
    rewrite boundValue_bindValue by exact Hoffset;
    cbn -[QVariant.value_int]; rewrite ?value_int_stored; reflexivity.
Qed.

Lemma time_point_bound_as_integer_witness :
  no_error (QSqlQuery.mk "INSERT INTO t VALUES (?,?)" [] QSqlError.none true
              [] (-1) QVariant.Invalid 0)
  /\ 0 <= 0
  /\ fst ((Statement.bind_time_point (fun t => t) 0 1500000000 ;;
           Statement.get_int Examples.no_conversion QVariant.Int64 0)
            Examples.insert_2) = Ret 1500000000.
Proof.
  split; [reflexivity |]. split; [lia |].
  apply (time_point_bound_as_integer Examples.no_conversion (fun t => t)
           (fun t => t) 0
           (QSqlQuery.mk "INSERT INTO t VALUES (?,?)" [] QSqlError.none true
              [] (-1) QVariant.Invalid 0) 1500000000);
    [reflexivity | lia].
Defined.

(** X4: binding a position again replaces the value: the statement is as
    if only the second value had been bound, and that value is read. *)
Theorem rebind_overwrites (offset : Z) (v1 v2 : QVariant.t) (q : QSqlQuery.t) :
  no_error q -> 0 <= offset ->
  (Statement.bind offset v1 ;; Statement.bind offset v2) (holding q)
    = Statement.bind offset v2 (holding q)
  /\ fst ((Statement.bind offset v1 ;; Statement.bind offset v2 ;;
           Statement.boundValue offset) (holding q)) = Ret v2.
Proof.
  intros Hq Hoffset.
  assert (Hq1 : no_error (QSqlQuery.bindValue offset v1 q))
    by (apply bind_no_error; exact Hq).
  split.
  - unfold m_bind. rewrite (bind_stores offset v1 q Hq).
    rewrite (bind_stores offset v2 _ Hq1), (bind_stores offset v2 q Hq).
    rewrite bindValue_bindValue. reflexivity.
  - unfold m_bind. rewrite (bind_stores offset v1 q Hq).
    rewrite (bind_stores offset v2 _ Hq1).
    rewrite boundValue_reads by (apply bind_no_error; exact Hq1).
    rewrite boundValue_bindValue by exact Hoffset. reflexivity.
Qed.

Lemma rebind_overwrites_witness :
  no_error (QSqlQuery.mk "INSERT INTO t VALUES (?,?)" [] QSqlError.none true
              [] (-1) QVariant.Invalid 0)
  /\ 0 <= 1
  /\ fst ((Statement.bind 1 (QVariant.Bool true) ;;
           Statement.bind 1 (QVariant.Str "b") ;;
           Statement.boundValue 1) Examples.insert_2)
     = Ret (QVariant.Str "b").
Proof.
  split; [reflexivity |]. split; [lia |].
  apply (rebind_overwrites 1 (QVariant.Bool true) (QVariant.Str "b")
           (QSqlQuery.mk "INSERT INTO t VALUES (?,?)" [] QSqlError.none true
              [] (-1) QVariant.Invalid 0));
    [reflexivity | lia].
Defined.

(** X5: a bind at a non-negative position changes what no other position
    reads: after bind(i, v) every get at a position other than i returns
    what it returned before. *)
Theorem bind_leaves_other_slots
    (qconvert : QVariant.t -> QVariant.MetaType -> QVariant.t)
    (from_time_t : Z -> Z) (ty : QVariant.IntType) (offset offset' : Z)
    (v : QVariant.t) (q : QSqlQuery.t) :
  no_error q -> 0 <= offset -> offset <> offset' ->
  fst ((Statement.bind offset v ;; Statement.boundValue offset') (holding q))
    = fst (Statement.boundValue offset' (holding q))
  /\ fst ((Statement.bind offset v ;;
           Statement.get_int qconvert ty offset') (holding q))
    = fst (Statement.get_int qconvert ty offset' (holding q))
  /\ fst ((Statement.bind offset v ;;
           Statement.get_double qconvert offset') (holding q))
    = fst (Statement.get_double qconvert offset' (holding q))
  /\ fst ((Statement.bind offset v ;;
           Statement.get_bool qconvert offset') (holding q))
    = fst (Statement.get_bool qconvert offset' (holding q))
  /\ fst ((Statement.bind offset v ;;
           Statement.get_bytes qconvert offset') (holding q))
    = fst (Statement.get_bytes qconvert offset' (holding q))
  /\ fst ((Statement.bind offset v ;;
           Statement.get_string qconvert offset') (holding q))
    = fst (Statement.get_string qconvert offset' (holding q))
  /\ fst ((Statement.bind offset v ;;
           Statement.get_time_point qconvert from_time_t offset') (holding q))
    = fst (Statement.get_time_point qconvert from_time_t offset' (holding q))
  /\ fst ((Statement.bind offset v ;;
           Statement.get_optional_int64 qconvert offset') (holding q))
    = fst (Statement.get_optional_int64 qconvert offset' (holding q))
  /\ fst ((Statement.bind offset v ;;
           Statement.get_optional_double qconvert offset') (holding q))
    = fst (Statement.get_optional_double qconvert offset' (holding q))
  /\ fst ((Statement.bind offset v ;;
           Statement.get_optional_string qconvert offset') (holding q))
    = fst (Statement.get_optional_string qconvert offset' (holding q))
  /\ fst ((Statement.bind offset v ;;
           Statement.get_optional_time_point qconvert from_time_t offset')
            (holding q))
    = fst (Statement.get_optional_time_point qconvert from_time_t offset'
             (holding q)).
Proof.
  intros Hq _ Hne.
  unfold Statement.get_int, Statement.get_double, Statement.get_bool,
    Statement.get_bytes, Statement.get_string, Statement.get_time_point,
    Statement.get_optional_int64, Statement.get_optional_double,
    Statement.get_optional_string, Statement.get_optional_time_point.
  repeat split; unfold m_bind; rewrite (bind_stores offset v q Hq);
    rewrite (boundValue_reads offset' _ (bind_no_error offset v q Hq));
    rewrite (boundValue_reads offset' q Hq);
    rewrite boundValue_bindValue_ne by exact Hne;
    try destruct (QVariant.isNull (QSqlQuery.boundValue offset' q));
    reflexivity.
Qed.

Lemma bind_leaves_other_slots_witness :
  no_error (QSqlQuery.mk "INSERT INTO t VALUES (?,?)"
              [QVariant.Int QVariant.Int64 7] QSqlError.none true
              [] (-1) QVariant.Invalid 0)
  /\ 0 <= 3
  /\ 3 <> 0
  /\ fst ((Statement.bind 3 (QVariant.Str "b") ;;
           Statement.get_int Examples.no_conversion QVariant.Int64 0)
            Examples.insert_2_bound)
     = Ret 7.
Proof.
  split; [reflexivity |]. split; [lia |]. split; [lia |].
  apply (bind_leaves_other_slots Examples.no_conversion (fun t => t)
           QVariant.Int64 3 0 (QVariant.Str "b")
           (QSqlQuery.mk "INSERT INTO t VALUES (?,?)"
              [QVariant.Int QVariant.Int64 7] QSqlError.none true
              [] (-1) QVariant.Invalid 0));
    [reflexivity | lia | lia].
Defined.



(** The statements a caller can come to hold all have their
    StatementImpl and a query without error. *)
Lemma from_prepare_prepared (s : Statement.t) : from_prepare s -> prepared s.
Proof.
  induction 1 as
    [drv sql c c' s Hp
    | offset value s r s' _ IH _ Hop
    | offset value length retain s r s' _ IH Hop
    | offset value length retain s r s' _ IH Hop
    | s r s' _ IH Hop
    | offset s r s' _ IH Hop
    | s r s' _ IH Hop
    | s r s' _ IH Hop
    | s r s' _ IH Hop].
  - exact (prepare_no_error drv sql c c' s Hp).
  - destruct IH as (q & -> & Hq). rewrite (bind_stores _ _ _ Hq) in Hop.
    injection Hop as _ <-. eexists. split; [reflexivity |].
    apply bind_no_error. exact Hq.
  - destruct IH as (q & -> & Hq). revert Hop.
    unfold Statement.bind_text. run_statement.
    destruct (Statement.int_max <? length); intros [= _ <-];
      exists q; split; auto.
  - destruct IH as (q & -> & Hq). revert Hop.
    unfold Statement.bindBlob. run_statement.
    destruct (Statement.int_max <? length); intros [= _ <-];
      exists q; split; auto.
  - destruct IH as (q & -> & Hq). rewrite run_false in Hop.
    injection Hop as _ <-. exists q. split; auto.
  - destruct IH as (q & -> & Hq). rewrite (boundValue_reads _ _ Hq) in Hop.
    injection Hop as _ <-. exists q. split; auto.
  - destruct IH as (q & -> & Hq). rewrite reset_clears in Hop.
    injection Hop as _ <-. exists QSqlQuery.fresh. split; reflexivity.
  - destruct IH as (q & -> & Hq).
    change (Statement.clearBindings (holding q))
      with (Ret tt, holding QSqlQuery.fresh) in Hop.
    injection Hop as _ <-. exists QSqlQuery.fresh. split; reflexivity.
  - destruct IH as (q & -> & Hq).
    change (Statement.changes (holding q))
      with (Ret (QSqlQuery.numRowsAffected q mod 2 ^ 64), holding q) in Hop.
    injection Hop as _ <-. exists q. split; auto.
Qed.

(** X7: on a statement that prepare returned, after any sequence of calls
    of bind at non-negative positions, the text and blob binds, run, the
    gets, reset, clearBindings and changes, the query still reports no
    error: the generic bind at a non-negative position returns and keeps
    it so, each of the gets and changes return without changing the
    statement, and reset and clearBindings return. *)
Theorem from_prepare_never_throws
    (qconvert : QVariant.t -> QVariant.MetaType -> QVariant.t)
    (from_time_t : Z -> Z) (ty : QVariant.IntType) (offset offset' : Z)
    (value : QVariant.t) (s : Statement.t) :
  from_prepare s -> 0 <= offset ->
  prepared s
  /\ fst (Statement.bind offset value s) = Ret tt
  /\ prepared (snd (Statement.bind offset value s))
  /\ (exists v, Statement.boundValue offset' s = (Ret v, s))
  /\ (exists z, Statement.get_int qconvert ty offset' s = (Ret z, s))
  /\ (exists d, Statement.get_double qconvert offset' s = (Ret d, s))
  /\ (exists b, Statement.get_bool qconvert offset' s = (Ret b, s))
  /\ (exists l, Statement.get_bytes qconvert offset' s = (Ret l, s))
  /\ (exists t, Statement.get_string qconvert offset' s = (Ret t, s))
  /\ (exists t, Statement.get_time_point qconvert from_time_t offset' s
                = (Ret t, s))
  /\ (exists o, Statement.get_optional_int64 qconvert offset' s = (Ret o, s))
  /\ (exists o, Statement.get_optional_double qconvert offset' s = (Ret o, s))
  /\ (exists o, Statement.get_optional_string qconvert offset' s = (Ret o, s))
  /\ (exists o, Statement.get_optional_time_point qconvert from_time_t offset' s
                = (Ret o, s))
  /\ (exists n, Statement.changes s = (Ret n, s))
  /\ fst (Statement.reset s) = Ret tt
  /\ fst (Statement.clearBindings s) = Ret tt.
Proof.
  intros Hs _. pose proof (from_prepare_prepared s Hs) as Hp.
  split; [exact Hp |]. destruct Hp as (q & -> & Hq).
  rewrite (bind_stores offset value q Hq).
  unfold Statement.get_int, Statement.get_double, Statement.get_bool,
    Statement.get_bytes, Statement.get_string, Statement.get_time_point,
    Statement.get_optional_int64, Statement.get_optional_double,
    Statement.get_optional_string, Statement.get_optional_time_point, m_bind.
  rewrite (boundValue_reads offset' q Hq).
  split; [reflexivity |].
  split; [eexists; split; [reflexivity | apply bind_no_error; exact Hq] |].
  repeat (split;
    [try destruct (QVariant.isNull (QSqlQuery.boundValue offset' q));
     eexists; reflexivity |]).
  split; reflexivity.
Qed.

Lemma from_prepare_never_throws_witness :
  from_prepare Examples.insert_2_bound
  /\ 0 <= 1
  /\ fst (Statement.bind 1 (QVariant.Str "b") Examples.insert_2_bound) = Ret tt.
Proof.
  assert (H : from_prepare Examples.insert_2_bound).
  { apply (fp_bind 0 (QVariant.Int QVariant.Int64 7) Examples.insert_2 (Ret tt)).
    - apply (fp_prepare Examples.engine "INSERT INTO t VALUES (?,?)"
               Examples.connection
               (snd (Statement.prepare Examples.engine
                       "INSERT INTO t VALUES (?,?)" Examples.connection))).
      reflexivity.
    - lia.
    - reflexivity. }
  split; [exact H |]. split; [lia |].
  apply (from_prepare_never_throws Examples.no_conversion (fun t => t)
           QVariant.Int64 1 0 (QVariant.Str "b") Examples.insert_2_bound H).
  lia.
Defined.

(** X8: changes() converts the int of numRowsAffected() to uint64_t: it
    returns the count modulo 2^64, a value in [0, 2^64), and leaves the
    statement alone.  After reset() the count is Qt's -1 for "unknown",
    which changes() returns as 18446744073709551615, while
    lastInsertRowId() reads 0 from the invalid id. *)
Theorem changes_wraps_unknown
    (qconvert : QVariant.t -> QVariant.MetaType -> QVariant.t)
    (q : QSqlQuery.t) :
  Statement.changes (holding q)
    = (Ret (QSqlQuery.numRowsAffected q mod 2 ^ 64), holding q)
  /\ 0 <= QSqlQuery.numRowsAffected q mod 2 ^ 64 < 2 ^ 64
  /\ (Statement.reset ;; Statement.changes) (holding q)
     = (Ret 18446744073709551615, holding QSqlQuery.fresh)
  /\ (Statement.reset ;; Statement.lastInsertRowId qconvert) (holding q)
     = (Ret 0, holding QSqlQuery.fresh).
Proof.
  split; [reflexivity |].
  split; [apply Z.mod_pos_bound; lia |].
  split; reflexivity.
Qed.


(** ** Further properties of connections *)

Lemma timeout_options_not_empty (toString : Z -> string) (timeout : Z)
    (options : string) :
  isEmpty (timeout_options toString timeout options) = false.
Proof.
  unfold timeout_options. destruct options; reflexivity.
Qed.

(** What setBusyTimeout does to a connection, open or not. *)
Lemma setBusyTimeout_steps_any (drv : Driver) (toString : Z -> string)
    (timeout : Z) (d : QSqlDatabase.t) :
  let options := timeout_options toString timeout (QSqlDatabase.connectOptions d) in
  let name := QSqlDatabase.databaseName d in
  let h := if QSqlDatabase.isOpen d
           then EvClose :: QSqlDatabase.history d else QSqlDatabase.history d in
  let e := drv_open drv h name options in
  Database.setBusyTimeout drv toString timeout (connected d)
  = if decide (QSqlError.type e = NoError)
    then (Ret tt,
          connected (QSqlDatabase.mk options name true (QSqlDatabase.lastError d)
                       (EvOpen name options :: h)))
    else (Throw (exception_of e),
          connected (QSqlDatabase.mk options name false e
                       (EvOpen name options :: h))).
Proof.
  destruct d as [o n io le h0].
  unfold Database.setBusyTimeout, timeout_options, QSqlDatabase.open,
    connected, exception_of.
  run_database.
  destruct io, (isEmpty o); cbn;
    match goal with
    | |- context [decide (QSqlError.type ?e = NoError)] =>
        destruct (decide (QSqlError.type e = NoError))
    end; reflexivity.
Qed.



(** A file name without NUL is handed over whole. *)
Lemma ctor_whole_name (drv : Driver) (ReadOnly SharedCache : Z)
    (file : string) (flags : Z) :
  (forall c, In c (list_ascii_of_string file) -> c <> Ascii.zero) ->
  Database.ctor drv ReadOnly SharedCache file flags
  = match DatabaseImpl.ctor drv ReadOnly SharedCache file flags with
    | Ret i => Ret (Database.mk (Some i))
    | Throw e => Throw e
    | AssertFail => AssertFail
    end.
Proof.
  intros H. unfold Database.ctor. rewrite (c_str_no_nul file H). reflexivity.
Qed.


(** X12: each successful setBusyTimeout appends one more timeout option:
    after two calls the options are those of the first call followed by
    ";QSQLITE_BUSY_TIMEOUT=" and the second timeout, and the connection is
    open. *)
Theorem setBusyTimeout_twice_accumulates (drv : Driver)
    (toString : Z -> string) (t1 t2 : Z) (d : QSqlDatabase.t) :
  let twice := (Database.setBusyTimeout drv toString t1 ;;
                Database.setBusyTimeout drv toString t2) (connected d) in
  fst twice = Ret tt ->
  connection_options (snd twice)
    = timeout_options toString t1 (QSqlDatabase.connectOptions d)
      +:+ ";QSQLITE_BUSY_TIMEOUT=" +:+ toString t2
  /\ connection_open (snd twice) = true.
Proof.
  cbn zeta. unfold m_bind.
  rewrite (setBusyTimeout_steps_any drv toString t1 d). cbn zeta.
  destruct (decide _) as [_ | _]; [| discriminate].
  match goal with
  | |- context [Database.setBusyTimeout drv toString t2 (connected ?d1)] =>
      rewrite (setBusyTimeout_steps_any drv toString t2 d1)
  end.
  cbn. destruct (decide _) as [_ | _]; [| discriminate].
  intros _. cbn. split; [| reflexivity].
  unfold timeout_options at 1.
  rewrite timeout_options_not_empty. reflexivity.
Qed.

Lemma setBusyTimeout_twice_accumulates_witness :
  fst ((Database.setBusyTimeout Examples.engine pretty 1000 ;;
        Database.setBusyTimeout Examples.engine pretty 5000)
         Examples.connection) = Ret tt
  /\ connection_options
       (snd ((Database.setBusyTimeout Examples.engine pretty 1000 ;;
              Database.setBusyTimeout Examples.engine pretty 5000)
               Examples.connection))
     = "QSQLITE_BUSY_TIMEOUT=1000;QSQLITE_BUSY_TIMEOUT=5000".
Proof.
  split; [reflexivity |].
  exact (proj1 (setBusyTimeout_twice_accumulates Examples.engine pretty
                  1000 5000
                  (QSqlDatabase.mk "" "cache.db" true QSqlError.none
                     [EvOpen "cache.db" ""]) eq_refl)).
Defined.

(** X13: on a connection that is not open, as a failed setBusyTimeout
    leaves it, setBusyTimeout does not close anything: it sets the options
    and asks the engine to open, and the connection is open afterwards
    exactly when the engine accepts. *)
Theorem setBusyTimeout_on_closed (drv : Driver) (toString : Z -> string)
    (timeout : Z) (d : QSqlDatabase.t) :
  QSqlDatabase.isOpen d = false ->
  let options := timeout_options toString timeout (QSqlDatabase.connectOptions d) in
  let e := drv_open drv (QSqlDatabase.history d) (QSqlDatabase.databaseName d)
             options in
  let r := fst (Database.setBusyTimeout drv toString timeout (connected d)) in
  let c' := snd (Database.setBusyTimeout drv toString timeout (connected d)) in
  asked c' = EvOpen (QSqlDatabase.databaseName d) options :: QSqlDatabase.history d
  /\ connection_open c' = bool_decide (QSqlError.type e = NoError)
  /\ r = (if decide (QSqlError.type e = NoError) then Ret tt
          else Throw (exception_of e)).
Proof.
  intros Hclosed. cbn zeta.
  rewrite (setBusyTimeout_steps_any drv toString timeout d). cbn zeta.
  rewrite Hclosed.
  destruct (decide _) as [He | He]; cbn.
  - rewrite bool_decide_eq_true_2 by exact He. repeat split.
  - rewrite bool_decide_eq_false_2 by exact He. repeat split.
Qed.

Lemma setBusyTimeout_on_closed_witness :
  QSqlDatabase.isOpen
    (QSqlDatabase.mk "QSQLITE_BUSY_TIMEOUT=5000" "cache.db" false
       Examples.cannot_open
       [EvOpen "cache.db" "QSQLITE_BUSY_TIMEOUT=5000"; EvClose;
        EvOpen "cache.db" ""]) = false
  /\ connection_open
       (snd (Database.setBusyTimeout Examples.engine pretty 5000
          (connected
             (QSqlDatabase.mk "QSQLITE_BUSY_TIMEOUT=5000" "cache.db" false
                Examples.cannot_open
                [EvOpen "cache.db" "QSQLITE_BUSY_TIMEOUT=5000"; EvClose;
                 EvOpen "cache.db" ""])))) = true.
Proof.
  split; [reflexivity |].
  exact (proj1 (proj2 (setBusyTimeout_on_closed Examples.engine pretty 5000
           (QSqlDatabase.mk "QSQLITE_BUSY_TIMEOUT=5000" "cache.db" false
              Examples.cannot_open
              [EvOpen "cache.db" "QSQLITE_BUSY_TIMEOUT=5000"; EvClose;
               EvOpen "cache.db" ""]) eq_refl))).
Defined.



(** X15: moving a Database hands its DatabaseImpl over and leaves the
    source without one; move assignment swaps the two.  On a Database left
    without its DatabaseImpl, setBusyTimeout, exec, prepare and the
    constructor of Transaction fail their assertion without changing
    anything; so does the destructor of a Transaction that still needs its
    rollback, which the catch clause does not cover. *)
Theorem database_moved_from (drv : Driver) (toString : Z -> string)
    (c other : Database.t) (sql : string) (timeout : Z)
    (mode : Transaction.Mode) :
  let gone := snd (Database.move_ctor other) in
  fst (Database.move_ctor other) = other
  /\ Database.operator_bool gone = false
  /\ Database.move_assign c other = (other, c)
  /\ Database.setBusyTimeout drv toString timeout gone = (AssertFail, gone)
  /\ Database.exec drv sql gone = (AssertFail, gone)
  /\ Statement.prepare drv sql gone = (AssertFail, gone)
  /\ Transaction.ctor drv mode gone = (AssertFail, gone)
  /\ Transaction.dtor drv (Transaction.mk gone true)
     = (AssertFail, Transaction.mk gone false).
Proof.
  destruct c as [ci], other as [oi], mode; cbn; repeat split.
Qed.

(** ** Further properties of transactions *)

Lemma ctor_runs (drv : Driver) (mode : Transaction.Mode) (d : QSqlDatabase.t) :
  let e := reply_error
             (drv_exec drv (QSqlDatabase.history d) (begin_statement mode)) in
  let c' := connected (snd (QSqlDatabase.exec drv (begin_statement mode) d)) in
  Transaction.ctor drv mode (connected d)
  = (if decide (QSqlError.type e = NoError)
     then Ret (Transaction.mk c' true)
     else Throw (exception_of e),
     c').
Proof.
  cbn zeta. unfold connected, Transaction.ctor, m_bind.
  destruct mode; cbn [begin_statement]; rewrite exec_outcome; cbn zeta;
    destruct (decide _); reflexivity.
Qed.

(** X16: the constructor of Transaction executes the BEGIN statement of
    its mode.  When the engine accepts it the transaction refers to the
    connection as the statement left it and needs a rollback; when the
    engine refuses it the constructor throws the engine's error and there
    is no transaction. *)
Theorem transaction_ctor_begins (drv : Driver) (mode : Transaction.Mode)
    (d : QSqlDatabase.t) :
  let e := reply_error
             (drv_exec drv (QSqlDatabase.history d) (begin_statement mode)) in
  let c' := snd (Database.exec drv (begin_statement mode) (connected d)) in
  Transaction.ctor drv mode (connected d)
    = (if decide (QSqlError.type e = NoError)
       then Ret (Transaction.mk c' true)
       else Throw (exception_of e),
       c')
  /\ asked c' = EvExec (begin_statement mode) :: QSqlDatabase.history d.
Proof.
  cbn zeta. rewrite ctor_runs. cbn zeta. unfold connected.
  rewrite exec_outcome. split; reflexivity.
Qed.

(** X17: once commit() or rollback() was called, whatever its outcome,
    the destructor returns without asking the engine anything and leaves
    the transaction as it is. *)
Theorem dtor_after_commit_or_rollback (drv : Driver) (txn : Transaction.t) :
  Transaction.dtor drv (snd (Transaction.commit drv txn))
    = (Ret tt, snd (Transaction.commit drv txn))
  /\ Transaction.dtor drv (snd (Transaction.rollback drv txn))
    = (Ret tt, snd (Transaction.rollback drv txn)).
Proof.
  split; apply dtor_nothing;
    [apply commit_clears_flag | apply rollback_clears_flag].
Qed.

(** X18: commit() and rollback() do not look at the flag: a second
    commit() executes COMMIT again, and a rollback() after a commit()
    executes ROLLBACK, whatever the engine said to the first call. *)
Theorem commit_rollback_ignore_flag (drv : Driver) (d : QSqlDatabase.t)
    (flag : bool) :
  let txn := Transaction.mk (connected d) flag in
  asked (Transaction.db
           (snd (Transaction.commit drv (snd (Transaction.commit drv txn)))))
    = EvExec "COMMIT TRANSACTION" :: EvExec "COMMIT TRANSACTION"
        :: QSqlDatabase.history d
  /\ asked (Transaction.db
           (snd (Transaction.rollback drv (snd (Transaction.commit drv txn)))))
    = EvExec "ROLLBACK TRANSACTION" :: EvExec "COMMIT TRANSACTION"
        :: QSqlDatabase.history d.
Proof.
  cbn zeta. unfold connected.
  rewrite !commit_runs, rollback_runs. cbn [snd Transaction.db].
  rewrite !exec_outcome. cbn [snd]. rewrite !exec_outcome. split; reflexivity.
Qed.

(** X19: over its life a transaction asks the engine two statements: the
    BEGIN of its mode and then, when it is destroyed untouched, ROLLBACK;
    when commit() was called before, COMMIT and nothing after it.  The
    destructor returns in both cases. *)
Theorem transaction_lifecycle (drv : Driver) (mode : Transaction.Mode)
    (c c' : Database.t) (txn : Transaction.t) :
  Transaction.ctor drv mode c = (Ret txn, c') ->
  Transaction.needRollback txn = true
  /\ Transaction.db txn = c'
  /\ fst (Transaction.dtor drv txn) = Ret tt
  /\ asked (Transaction.db (snd (Transaction.dtor drv txn)))
     = EvExec "ROLLBACK TRANSACTION" :: EvExec (begin_statement mode) :: asked c
  /\ fst (Transaction.dtor drv (snd (Transaction.commit drv txn))) = Ret tt
  /\ asked (Transaction.db
              (snd (Transaction.dtor drv (snd (Transaction.commit drv txn)))))
     = EvExec "COMMIT TRANSACTION" :: EvExec (begin_statement mode) :: asked c.
Proof.
  destruct c as [[[d] |]]; [| destruct mode; discriminate].
  change (Database.mk (Some (DatabaseImpl.mk d))) with (connected d).
  rewrite ctor_runs. cbn zeta.
  destruct (decide _) as [_ | _]; [| discriminate].
  intros [= <- <-].
  rewrite (dtor_nothing drv _ (commit_clears_flag drv _)).
  unfold Transaction.dtor, try_catch_all. cbn [Transaction.needRollback].
  rewrite rollback_runs, commit_runs. cbn [Transaction.db fst snd].
  unfold connected. rewrite !exec_outcome. cbn [fst snd].
  split; [reflexivity |]. split; [reflexivity |].
  split; [destruct (decide _); reflexivity |].
  split; [destruct (decide _); reflexivity |].
  split; reflexivity.
Qed.

Lemma transaction_lifecycle_witness :
  Transaction.ctor Examples.engine Transaction.Deferred Examples.connection
  = (Ret Examples.transaction, Transaction.db Examples.transaction)
  /\ asked (Transaction.db
       (snd (Transaction.dtor Examples.engine Examples.transaction)))
     = [EvExec "ROLLBACK TRANSACTION"; EvExec "BEGIN DEFERRED TRANSACTION";
        EvOpen "cache.db" ""].
Proof.
  split; [reflexivity |].
  apply (transaction_lifecycle Examples.engine Transaction.Deferred
           Examples.connection (Transaction.db Examples.transaction)
           Examples.transaction).
  reflexivity.
Defined.
